(** * Token supply dashboard: block resolution and batched supply reads

    A shallow embedding of [src/app.py]: the retrying JSON-RPC transport
    ([call_rpc], [call_rpc_batch]), the binary search that turns a calendar
    date into a block number ([get_closest_block_timestamp]) and the batched
    [totalSupply] reader ([get_token_total_supplies],
    [get_token_total_supplies_with_retries]).

    Conventions of the embedding.
    - Python [int] is [Z]; a Python [str] is a [string] whose characters are
      read as the code points 0..255.
    - [None] is [None]; a dict used as a map is a [gmap].
    - The network is a state machine [post] over an abstract state; every
      physical [requests.post] and every [time.sleep] is recorded in a trace.
      The [st.write] diagnostics are not part of the model.
    - An exception that the source does not catch is the [Raise] outcome of
      the monad [M]. *)

From Stdlib Require Import ZArith Ascii String List Lia Permutation Sorted.
From stdpp Require Import gmap strings list fin_maps.

Local Open Scope string_scope.
Local Open Scope list_scope.
Local Open Scope Z_scope.

(** ** Python built-ins used by the source *)

Module Py.

(** [Py_ISSPACE] on the ASCII range, and the two code points below 256 that
    [str] input has turned into a space before parsing (U+0085, U+00A0). *)
Definition is_space (c : ascii) : bool :=
  let n := Z.of_N (N_of_ascii c) in
  ((9 <=? n) && (n <=? 13)) || (n =? 32) || (n =? 133) || (n =? 160).

(** [_PyLong_DigitValue]: 0..35 on the alphanumerics, 37 elsewhere. *)
Definition digit_value (c : ascii) : Z :=
  let n := Z.of_N (N_of_ascii c) in
  if (48 <=? n) && (n <=? 57) then n - 48
  else if (97 <=? n) && (n <=? 122) then n - 87
  else if (65 <=? n) && (n <=? 90) then n - 55
  else 37.

Definition is_underscore (c : ascii) : bool := Ascii.eqb c "_".

Fixpoint skip_spaces (s : string) : string :=
  match s with
  | String c s' => if is_space c then skip_spaces s' else s
  | EmptyString => s
  end.

(** The digit loop of [long_from_binary_base] for base 16: digits and single
    underscores are consumed; [prev] tells whether the previous character was
    an underscore, [moved] whether anything was consumed.  [None] is the
    syntax error of a doubled or trailing underscore. *)
Fixpoint scan_digits (prev moved : bool) (acc : Z) (s : string)
  : option (Z * bool * string) :=
  match s with
  | String c s' =>
      if is_underscore c then
        if prev then None else scan_digits true true acc s'
      else if digit_value c <? 16 then
        scan_digits false true (acc * 16 + digit_value c) s'
      else if prev then None else Some (acc, moved, s)
  | EmptyString => if prev then None else Some (acc, moved, s)
  end.

Definition strip_sign (s : string) : Z * string :=
  match s with
  | String c r =>
      if Ascii.eqb c "+" then (1, r)
      else if Ascii.eqb c "-" then (-1, r)
      else (1, s)
  | EmptyString => (1, s)
  end.

(** After the ["0x"] or ["0X"] prefix one underscore is allowed. *)
Definition strip_prefix (s : string) : string :=
  match s with
  | String c0 (String c1 r) =>
      if Ascii.eqb c0 "0" && (Ascii.eqb c1 "x" || Ascii.eqb c1 "X") then
        match r with
        | String c2 r' => if is_underscore c2 then r' else r
        | EmptyString => r
        end
      else s
  | _ => s
  end.

Definition starts_with_underscore (s : string) : bool :=
  match s with
  | String c _ => is_underscore c
  | EmptyString => false
  end.

(** [int(s, 16)] on a [str]: [Some v] is the value, [None] is [ValueError]. *)
Definition int16 (s : string) : option Z :=
  let '(sign, s1) := strip_sign (skip_spaces s) in
  let s2 := strip_prefix s1 in
  if starts_with_underscore s2 then None
  else
    match scan_digits false false 0 s2 with
    | Some (v, true, rest) =>
        match skip_spaces rest with
        | EmptyString => Some (sign * v)
        | _ => None
        end
    | _ => None
    end.

(** [hex(n)]: lower-case digits after ["0x"], a leading minus sign for a
    negative number. *)
Definition hex_digit (d : Z) : ascii :=
  ascii_of_N (Z.to_N (if d <? 10 then 48 + d else 87 + d)).

Fixpoint hex_digits (fuel : nat) (n : Z) : string :=
  match fuel with
  | O => EmptyString
  | S fuel' =>
      if n <? 16 then String (hex_digit n) EmptyString
      else hex_digits fuel' (n / 16) +:+ String (hex_digit (n mod 16)) EmptyString
  end.

Definition hex (n : Z) : string :=
  let m := Z.abs n in
  (if n <? 0 then "-0x" else "0x") +:+ hex_digits (S (Z.to_nat (Z.log2 m))) m.

(** [datetime.utcfromtimestamp(t).date()] as the number of days since
    1970-01-01; [None] is the error raised outside the years 1..9999. *)
Definition utc_date (t : Z) : option Z :=
  if (-62135596800 <=? t) && (t <=? 253402300799) then Some (t / 86400)
  else None.

End Py.

(** ** Data model *)

(** A JSON-RPC parameter as the source builds them: a string (a block number
    printed by [hex]), a boolean, or the [{"to": .., "data": ..}] object of
    an [eth_call]. *)
Inductive param :=
  | PStr (s : string)
  | PBool (b : bool)
  | PCall (to data : string).

Record request := {
  req_id : Z;
  req_method : string;
  req_params : list param
}.

(** What [json.dumps] is applied to: one request object, or a list. *)
Inductive payload :=
  | Single (r : request)
  | Batch (rs : list request).

(** The ["result"] member of a single reply: JSON [null], a string, or a
    block object with its ["timestamp"] string. *)
Inductive rpc_value :=
  | VNull
  | VStr (s : string)
  | VBlock (timestamp : string).

(** A JSON object reply with at least one member; [reply_result] is its
    ["result"] member when it has one. *)
Record reply := { reply_result : option rpc_value }.

(** One entry of a batch reply, read with [resp.get].  [resp_id] is what
    [id_to_token.get(resp_id)] looks up: [Some z] for a number or boolean
    equal to the integer [z] ([1.0] and [true] are the key [1]), [None] for
    an id that is absent, [null], a string or a number equal to no integer,
    none of which is a key.  An id that is an array or an object cannot be
    looked up at all ([TypeError] at line 122); such replies are outside the
    model.  [resp_result] is [None] when the member is absent or [null], and
    a string otherwise, as the wire protocol of [eth_call] has it; results
    of another JSON type are outside the model. *)
Record rpc_response := {
  resp_id : option Z;
  resp_result : option string
}.

(** What [response.json()] returns: an object with members, or an array of
    response objects.  The object without members, [{}], is falsy and
    iterates over nothing, like the empty array, in both readers; it is the
    body [BodyArray []]. *)
Inductive body :=
  | BodyObject (r : reply)
  | BodyArray (rs : list rpc_response).

(** One physical [requests.post] followed by [raise_for_status]: a
    [RequestException] or a decoded body. *)
Inductive http :=
  | HttpError
  | HttpOk (b : body).

Record token := {
  name : string;
  contract : string;
  decimals : Z
}.

Definition TOKENS : list token :=
  [ {| name := "USDC"; contract := "0x3894085Ef7Ff0f0aeDf52E2A2704928d1Ec074F1"; decimals := 6 |};
    {| name := "USDT"; contract := "0xB75D0B03c06A926e488e2659DF1A861F860bD3d1"; decimals := 6 |};
    {| name := "SFASTUSD"; contract := "0x37a4dd9ced2b19cfe8fac251cd727b5787e45269"; decimals := 18 |} ].

(** ** Effects *)

(** The observable actions: the post made at loop index [attempt] of a call,
    and a sleep of [delay] time units. *)
Inductive event :=
  | EvPost (attempt : Z) (p : payload)
  | EvSleep (delay : Z).

Inductive exn :=
  | ValueError
  | TypeError
  | AttributeError.

(** [OutOfFuel] is the outcome of a loop whose fuel ran out; the theorems
    show that the source's loops never reach it. *)
Inductive result (A : Type) :=
  | Ret (a : A)
  | Raise (e : exn)
  | OutOfFuel.
Arguments Ret {A} a.
Arguments Raise {A} e.
Arguments OutOfFuel {A}.

Record world (Net : Type) := World {
  net : Net;
  trace : list event
}.
Arguments World {Net} net trace.
Arguments net {Net} w.
Arguments trace {Net} w.

Definition M (Net A : Type) : Type := world Net -> result A * world Net.

Definition ret {Net A} (a : A) : M Net A := fun w => (Ret a, w).

Definition raise {Net A} (e : exn) : M Net A := fun w => (Raise e, w).

Definition out_of_fuel {Net A} : M Net A := fun w => (OutOfFuel, w).

Definition bind {Net A B} (m : M Net A) (k : A -> M Net B) : M Net B :=
  fun w =>
    match m w with
    | (Ret a, w') => k a w'
    | (Raise e, w') => (Raise e, w')
    | (OutOfFuel, w') => (OutOfFuel, w')
    end.

Notation "'let*' x ':=' m 'in' k" := (bind m (fun x => k))
  (at level 10, x name, m at level 200, k at level 200).

Definition emit {Net} (e : event) : M Net unit :=
  fun w => (Ret tt, World (net w) (trace w ++ [e])).

(** [time.sleep(delay)]: a negative length is refused with [ValueError]
    before any wait. *)
Definition sleep {Net} (delay : Z) : M Net unit :=
  if delay <? 0 then raise ValueError else emit (EvSleep delay).

(** [int(x, 16)] on a string, raising [ValueError]. *)
Definition int_str {Net} (s : string) : M Net Z :=
  match Py.int16 s with
  | Some v => ret v
  | None => raise ValueError
  end.

(** [int(v, 16)] on a JSON value: only a string has an explicit base. *)
Definition int_value {Net} (v : rpc_value) : M Net Z :=
  match v with
  | VStr s => int_str s
  | _ => raise TypeError
  end.

(** [v["timestamp"]]: neither [None] nor a string can be indexed by a key. *)
Definition timestamp_of {Net} (v : rpc_value) : M Net string :=
  match v with
  | VBlock t => ret t
  | _ => raise TypeError
  end.

(** [datetime.utcfromtimestamp(t)], then [.date()].  The exception stands
    for the one Python raises: [ValueError] for a year outside 1..9999,
    [OSError] or [OverflowError] further out; the model keeps one class. *)
Definition date_of {Net} (t : Z) : M Net Z :=
  match Py.utc_date t with
  | Some d => ret d
  | None => raise ValueError
  end.

(** [not b or "result" not in b] is false exactly when [b] is an object with
    a ["result"] member; the member is returned then.  [None], an object
    without the member and a list of response objects (the empty one
    included) all take the error branch. *)
Definition result_member (b : option body) : option rpc_value :=
  match b with
  | Some (BodyObject r) => reply_result r
  | _ => None
  end.

(** [dict.get] on the supplies mapping, as the caller reads it: a missing
    key and a key bound to [None] both give [None]. *)
Definition supplies_get (m : gmap string (option Z)) (k : string) : option Z :=
  default None (m !! k).

Fixpoint enumerate_from {A} (i : Z) (l : list A) : list (Z * A) :=
  match l with
  | [] => []
  | x :: l' => (i, x) :: enumerate_from (i + 1) l'
  end.

Definition enumerate {A} (l : list A) : list (Z * A) := enumerate_from 0 l.

(** ** The program *)

Section Program.

Context {Net : Type}.

(** The endpoint: one physical call, which answers and moves to a next state. *)
Variable post : Net -> payload -> http * Net.

(** The injected table of tokens ([TOKENS] in the source). *)
Variable tokens : list token.

Definition do_post (attempt : Z) (p : payload) : M Net http :=
  fun w =>
    let '(o, n) := post (net w) p in
    (Ret o, World n (trace w ++ [EvPost attempt p])).

(** [for attempt in range(retries)] of [call_rpc] and [call_rpc_batch], with
    [todo] iterations left; the two loops are the same but for the payload. *)
Fixpoint post_loop (p : payload) (retries delay : Z) (attempt : Z) (todo : nat)
  : M Net (option body) :=
  match todo with
  | O => ret None
  | S todo' =>
      let* o := do_post attempt p in
      match o with
      | HttpOk b => ret (Some b)
      | HttpError =>
          let* _ := (if attempt <? retries - 1 then sleep delay else ret tt) in
          post_loop p retries delay (attempt + 1) todo'
      end
  end.

Definition call_rpc (method : string) (params : list param) (retries delay : Z)
  : M Net (option body) :=
  let payload := Single {| req_id := 1; req_method := method; req_params := params |} in
  post_loop payload retries delay 0 (Z.to_nat retries).

Definition call_rpc_batch (batch_payload : list request) (retries delay : Z)
  : M Net (option body) :=
  post_loop (Batch batch_payload) retries delay 0 (Z.to_nat retries).

(** [while low <= high] of [get_closest_block_timestamp].  The pair returned
    is the block number with the block's timestamp, which stands for
    [block_datetime]; [None] is the pair [(None, None)]. *)
Fixpoint search (fuel : nat) (target_date low high : Z) (chosen : option (Z * Z))
  : M Net (option (Z * Z)) :=
  if low <=? high then
    match fuel with
    | O => out_of_fuel
    | S fuel' =>
        let mid := (low + high) / 2 in
        let* block_data := call_rpc "eth_getBlockByNumber" [PStr (Py.hex mid); PBool false] 3 1 in
        match result_member block_data with
        | None => ret None
        | Some v =>
            let* timestamp := timestamp_of v in
            let* block_timestamp := int_str timestamp in
            let* block_date := date_of block_timestamp in
            if block_date =? target_date then ret (Some (mid, block_timestamp))
            else if block_date <? target_date then
              search fuel' target_date (mid + 1) high (Some (mid, block_timestamp))
            else search fuel' target_date low (mid - 1) chosen
        end
    end
  else ret chosen.

(** [target_date] is a day counted from 1970-01-01.  The loop gets one unit
    of fuel per block of the range [0 .. latest_block_number]. *)
Definition get_closest_block_timestamp (target_date : Z) : M Net (option (Z * Z)) :=
  let* latest_block := call_rpc "eth_blockNumber" [] 3 1 in
  match result_member latest_block with
  | None => ret None
  | Some v =>
      let* latest_block_number := int_value v in
      search (Z.to_nat (latest_block_number + 1)) target_date 0 latest_block_number None
  end.

(** The request built for token [i] at lines 97-108. *)
Definition supply_request (block_number : Z) (it : Z * token) : request :=
  {| req_id := fst it;
     req_method := "eth_call";
     req_params := [PCall (contract (snd it)) "0x18160ddd"; PStr (Py.hex block_number)] |}.

Definition batch_payload (block_number : Z) : list request :=
  map (supply_request block_number) (enumerate tokens).

Definition id_to_token : gmap Z token :=
  foldl (fun m it => <[fst it := snd it]> m) ∅ (enumerate tokens).

(** Lines 125-131: the value stored for a response's result. *)
Definition supply_of (result_hex : option string) : option Z :=
  match result_hex with
  | None => Some 0
  | Some s => if String.eqb s "0x" || String.eqb s "0x0" then Some 0 else Py.int16 s
  end.

(** One iteration of [for resp in responses]. *)
Definition record_response (token_supplies : gmap string (option Z)) (resp : rpc_response)
  : gmap string (option Z) :=
  match resp_id resp ≫= (fun i => id_to_token !! i) with
  | None => token_supplies
  | Some token_info => <[name token_info := supply_of (resp_result resp)]> token_supplies
  end.

Definition decode_responses (responses : list rpc_response) : gmap string (option Z) :=
  foldl record_response ∅ responses.

Definition all_unavailable : gmap string (option Z) :=
  foldl (fun m token => <[name token := None]> m) ∅ tokens.

(** Iterating over a JSON object with members yields its keys, and a [str]
    has no [get]. *)
Definition get_token_total_supplies (block_number : Z) : M Net (gmap string (option Z)) :=
  let* responses := call_rpc_batch (batch_payload block_number) 3 1 in
  match responses with
  | None => ret all_unavailable
  | Some (BodyArray rs) => ret (decode_responses rs)
  | Some (BodyObject _) => raise AttributeError
  end.

(** [supplies and all(supply is not None for supply in supplies.values())]. *)
Definition complete (supplies : gmap string (option Z)) : bool :=
  bool_decide (supplies ≠ ∅) && bool_decide (map_Forall (fun _ v => is_Some v) supplies).

Fixpoint retry_loop (block_number delay : Z) (todo : nat)
  : M Net (option (gmap string (option Z))) :=
  match todo with
  | O => ret None
  | S todo' =>
      let* supplies := get_token_total_supplies block_number in
      if complete supplies then ret (Some supplies)
      else
        let* _ := sleep delay in
        retry_loop block_number delay todo'
  end.

Definition get_token_total_supplies_with_retries (block_number max_retries delay : Z)
  : M Net (option (gmap string (option Z))) :=
  retry_loop block_number delay (Z.to_nat max_retries).

End Program.

(** ** Endpoints used in the examples *)

(** A scripted endpoint: it plays the listed outcomes in order and fails
    once the script is over. *)
Definition script_post (n : list http) (p : payload) : http * list http :=
  match n with
  | [] => (HttpError, [])
  | o :: n' => (o, n')
  end.

(** An endpoint that gives the same outcome to every call. *)
Definition const_post (o : http) (n : unit) (p : payload) : http * unit := (o, n).

(** A synthetic chain: the head is block [head] and block [b] carries the
    timestamp [timestamp b].  The endpoint never fails. *)
Definition chain_post (head : Z) (timestamp : Z -> Z) (n : unit) (p : payload)
  : http * unit :=
  match p with
  | Single r =>
      if String.eqb (req_method r) "eth_blockNumber" then
        (HttpOk (BodyObject {| reply_result := Some (VStr (Py.hex head)) |}), n)
      else
        match req_params r with
        | PStr h :: _ =>
            match Py.int16 h with
            | Some b =>
                (HttpOk (BodyObject {| reply_result := Some (VBlock (Py.hex (timestamp b))) |}), n)
            | None => (HttpError, n)
            end
        | _ => (HttpError, n)
        end
  | Batch _ => (HttpError, n)
  end.

(** The initial state of the endpoints without a state of their own. *)
Definition w0 : world unit := World tt [].

(** A response with an id and a result string, and a batch reply. *)
Definition response (i : Z) (s : string) : rpc_response :=
  {| resp_id := Some i; resp_result := Some s |}.

Definition batch_reply (rs : list rpc_response) : http := HttpOk (BodyArray rs).

(** ** Reference definitions the claims are stated against *)

(** The spec's brute-force resolver: a linear scan of the blocks
    [0 .. count - 1] for the greatest one whose date is on or before
    [target_date]. *)
Fixpoint linear_scan (date : Z -> Z) (target_date : Z) (count : nat) : option Z :=
  match count with
  | O => None
  | S count' =>
      if date (Z.of_nat count') <=? target_date then Some (Z.of_nat count')
      else linear_scan date target_date count'
  end.

(** The trace of [k] attempts of one call, from loop index [attempt] on: a
    post per attempt and a sleep between two attempts. *)
Fixpoint attempt_trace (p : payload) (delay attempt : Z) (k : nat) : list event :=
  match k with
  | O => []
  | S k' =>
      EvPost attempt p ::
      match k' with
      | O => []
      | S _ => EvSleep delay :: attempt_trace p delay (attempt + 1) k'
      end
  end.

(** Whether the next [k] posts of [p] from the state [n] all fail. *)
Fixpoint all_fail {Net} (post : Net -> payload -> http * Net) (p : payload)
    (k : nat) (n : Net) : bool :=
  match k with
  | O => true
  | S k' =>
      match post n p with
      | (HttpError, n') => all_fail post p k' n'
      | (HttpOk _, _) => false
      end
  end.

(** The oracle calls of method [method] in a trace: a call starts with its
    post at loop index 0. *)
Definition starts_call (method : string) (e : event) : bool :=
  match e with
  | EvPost attempt (Single r) => (attempt =? 0) && String.eqb (req_method r) method
  | _ => false
  end.

Definition oracle_calls (method : string) (tr : list event) : Z :=
  Z.of_nat (length (filter (fun e => starts_call method e = true) tr)).

Definition is_post (e : event) : bool :=
  match e with
  | EvPost _ _ => true
  | EvSleep _ => false
  end.

Definition posts (tr : list event) : Z :=
  Z.of_nat (length (filter (fun e => is_post e = true) tr)).

(** The accumulator after the digits of [n] have been read. *)
Fixpoint shifted (acc : Z) (fuel : nat) (n : Z) : Z :=
  match fuel with
  | O => acc
  | S fuel' =>
      if n <? 16 then acc * 16 + n
      else shifted acc fuel' (n / 16) * 16 + n mod 16
  end.

(** Whether [int(s, 16)] meets a minus sign: the first character after the
    leading white space. *)
Definition has_minus_sign (s : string) : bool :=
  match Py.skip_spaces s with
  | String c _ => Ascii.eqb c "-"
  | EmptyString => false
  end.

(** The bound on the iterations of a binary search over [size] candidates. *)
Definition search_bound (size : Z) : Z :=
  if size <=? 0 then 0 else Z.log2 size + 1.

(** The head number that [get_closest_block_timestamp] reads from the
    outcome of its latest-block call, when it reads one. *)
Definition reported_head (r : result (option body)) : option Z :=
  match r with
  | Ret b =>
      match result_member b with
      | Some (VStr s) => Py.int16 s
      | _ => None
      end
  | _ => None
  end.

(** The two oracle methods, and the request for the header of block [mid]. *)
Definition header : string := "eth_getBlockByNumber".

Definition latest : string := "eth_blockNumber".

Definition block_request (mid : Z) : request :=
  {| req_id := 1; req_method := header;
     req_params := [PStr (Py.hex mid); PBool false] |}.

Definition latest_request : request :=
  {| req_id := 1; req_method := latest; req_params := [] |}.

(** The query name a response is correlated with, when its id is the id of
    a submitted request. *)
Definition answered_name (tokens : list token) (resp : rpc_response) : option string :=
  name <$> (resp_id resp ≫= (fun i => id_to_token tokens !! i)).

(** A response that matches no submitted request: its id is the id of none
    of the requests of the batch. *)
Definition unmatched (batch : list request) (resp : rpc_response) : Prop :=
  forall req, req ∈ batch -> resp_id resp <> Some (req_id req).

(** The responses that carry the id [i]. *)
Definition responses_for (i : Z) (rs : list rpc_response) : list rpc_response :=
  filter (fun resp => resp_id resp = Some i) rs.

(** The calendar day, counted from 1970-01-01, of block [b] of a chain. *)
Definition chain_date (timestamp : Z -> Z) (b : Z) : Z := timestamp b / 86400.

(** A block [n] of the chain, with its timestamp [t], whose date is on or
    before the target date. *)
Definition on_or_before (head : Z) (timestamp : Z -> Z) (target_date n t : Z) : Prop :=
  0 <= n <= head /\ t = timestamp n /\
  exists d, Py.utc_date (timestamp n) = Some d /\ d <= target_date.

(** What the search may return on a monotone chain: a block on the target
    date, or the last block before it; [None] when every block is later. *)
Definition resolved (head : Z) (timestamp : Z -> Z) (target_date : Z)
    (r : option (Z * Z)) : Prop :=
  match r with
  | Some (n, t) =>
      0 <= n <= head /\ t = timestamp n /\
      (chain_date timestamp n = target_date \/
       (chain_date timestamp n < target_date /\
        forall b, n < b <= head -> target_date < chain_date timestamp b))
  | None => forall b, 0 <= b <= head -> target_date < chain_date timestamp b
  end.

(** ** The caller *)

(** A value of a row of [get_data_for_date_range]: the date printed by
    [strftime('%Y-%m-%d')] (kept as the day it prints), the block number, a
    scaled supply (a [float]) or [None]. *)
Inductive cell (F : Type) :=
  | CDate (day : Z)
  | CBlock (number : Z)
  | CValue (x : F)
  | CNone.
Arguments CDate {F} day.
Arguments CBlock {F} number.
Arguments CValue {F} x.
Arguments CNone {F}.

(** How [get_data_for_date_range] ends: with its rows, with an exception of
    the functions it calls, with the [OverflowError] or [ZeroDivisionError]
    of its own arithmetic (both are [ArithmeticError]s), or out of fuel. *)
Inductive outcome (A : Type) :=
  | Done (a : A)
  | Uncaught (e : exn)
  | ArithmeticError
  | Exhausted.
Arguments Done {A} a.
Arguments Uncaught {A} e.
Arguments ArithmeticError {A}.
Arguments Exhausted {A}.

(** [date.max], 9999-12-31, as a day counted from 1970-01-01. *)
Definition date_max : Z := 2932896.

(** [d + timedelta(days=1)], which raises [OverflowError] past [date.max]. *)
Definition next_day (d : Z) : option Z :=
  if d <? date_max then Some (d + 1) else None.

Section Caller.

Context {Net F : Type}.
Variable post : Net -> payload -> http * Net.
Variable tokens : list token.

(** [raw_supply / (10 ** decimals)] in floating point; [None] when Python
    raises instead of giving a [float]. *)
Variable scale : Z -> Z -> option F.

(** One iteration of [for token in TOKENS] at lines 163-168; the row is
    [None] once the scaling has raised. *)
Definition fill_cell (token_supplies : gmap string (option Z))
    (row : option (gmap string (cell F))) (token : token)
  : option (gmap string (cell F)) :=
  match row with
  | None => None
  | Some row =>
      match supplies_get token_supplies (name token) with
      | Some raw_supply =>
          match scale raw_supply (decimals token) with
          | Some x => Some (<[name token := CValue x]> row)
          | None => None
          end
      | None => Some (<[name token := CNone]> row)
      end
  end.

Definition make_row (current_date block_number : Z)
    (token_supplies : gmap string (option Z)) : option (gmap string (cell F)) :=
  foldl (fill_cell token_supplies)
    (Some (<["block" := CBlock block_number]> (<["date" := CDate current_date]> ∅)))
    tokens.

(** [while current_date <= end_date] of [get_data_for_date_range]. *)
Fixpoint date_loop (fuel : nat) (current_date end_date : Z)
    (data_rows : list (gmap string (cell F))) (w : world Net)
  : outcome (list (gmap string (cell F))) * world Net :=
  if current_date <=? end_date then
    match fuel with
    | O => (Exhausted, w)
    | S fuel' =>
        let continue rows w' :=
          match next_day current_date with
          | Some d => date_loop fuel' d end_date rows w'
          | None => (ArithmeticError, w')
          end in
        match get_closest_block_timestamp post current_date w with
        | (Ret None, w1) => continue data_rows w1
        | (Ret (Some (block_number, _)), w1) =>
            match get_token_total_supplies_with_retries post tokens block_number 3 1 w1 with
            | (Ret None, w2) => continue data_rows w2
            | (Ret (Some token_supplies), w2) =>
                match make_row current_date block_number token_supplies with
                | Some row => continue (data_rows ++ [row]) w2
                | None => (ArithmeticError, w2)
                end
            | (Raise e, w2) => (Uncaught e, w2)
            | (OutOfFuel, w2) => (Exhausted, w2)
            end
        | (Raise e, w1) => (Uncaught e, w1)
        | (OutOfFuel, w1) => (Exhausted, w1)
        end
    end
  else (Done data_rows, w).

(** The loop gets one unit of fuel per day of the range. *)
Definition get_data_for_date_range (start_date end_date : Z) (w : world Net)
  : outcome (list (gmap string (cell F))) * world Net :=
  date_loop (Z.to_nat (end_date - start_date + 1)) start_date end_date [] w.

End Caller.

(** A row made for the day [d] from a mapping that passed the completeness
    test of the retrying reader. *)
Definition row_of_day {F} (tokens : list token) (scale : Z -> Z -> option F)
    (d : Z) (row : gmap string (cell F)) : Prop :=
  exists block_number token_supplies,
    complete token_supplies = true /\
    make_row tokens scale d block_number token_supplies = Some row.

(** The cell that the loop of lines 163-168 stores for a token. *)
Definition cell_of {F} (scale : Z -> Z -> option F)
    (token_supplies : gmap string (option Z)) (t : token) (c : cell F) : Prop :=
  (supplies_get token_supplies (name t) = None /\ c = CNone) \/
  (exists raw_supply x,
      supplies_get token_supplies (name t) = Some raw_supply /\
      scale raw_supply (decimals t) = Some x /\
      c = CValue x).

(** A scaling for the examples, for supplies and decimals that are not
    negative: it keeps the quotient as a fraction, and raises where the
    quotient rounds beyond the range of a [float], from [2^1024 - 2^970]
    on. *)
Definition capped_scale (raw_supply decimals : Z) : option (Z * Z) :=
  if raw_supply / 10 ^ decimals <? 2 ^ 1024 - 2 ^ 970
  then Some (raw_supply, 10 ^ decimals)
  else None.

(** A synthetic ledger: the chain of [chain_post], whose endpoint also
    answers a batch, request by request and in the order of the requests,
    with the supply [supply b c] of the contract [c] at block [b]. *)
Definition ledger_answer (supply : Z -> string -> Z) (req : request) : rpc_response :=
  {| resp_id := Some (req_id req);
     resp_result :=
       match req_params req with
       | [PCall to _; PStr block_hex] =>
           (fun b => Py.hex (supply b to)) <$> Py.int16 block_hex
       | _ => None
       end |}.

Definition ledger_post (head : Z) (timestamp : Z -> Z) (supply : Z -> string -> Z)
    (n : unit) (p : payload) : http * unit :=
  match p with
  | Batch reqs => (HttpOk (BodyArray (ledger_answer supply <$> reqs)), n)
  | Single _ => chain_post head timestamp n p
  end.

(** A row of the day [d] on the ledger: the block is one that the search
    may return for [d], and the supplies are those of that block. *)
Definition ledger_row {F} (head : Z) (timestamp : Z -> Z) (supply : Z -> string -> Z)
    (tokens : list token) (scale : Z -> Z -> option F)
    (d : Z) (row : gmap string (cell F)) : Prop :=
  exists n (m : gmap string (option Z)),
    resolved head timestamp d (Some (n, timestamp n)) /\
    (forall t, t ∈ tokens -> m !! name t = Some (Some (supply n (contract t)))) /\
    make_row tokens scale d n m = Some row.



(** The whole-batch calls in a trace: a call starts with its post at loop
    index 0. *)
Definition starts_batch (e : event) : bool :=
  match e with
  | EvPost attempt (Batch _) => attempt =? 0
  | _ => false
  end.

Definition batch_calls (tr : list event) : Z :=
  Z.of_nat (length (filter (fun e => starts_batch e = true) tr)).

(** ** Theorems *)

Example int16_samples :
  map Py.int16
    ["0x"; "0x0"; ""; "-0x1"; "+0xf"; " 0xff "; "0x_f"; "0x__f"; "_f"; "f_";
     "f__f"; "f_f"; "0x_"; "0X1F"; "0"; "0b1"; "0x 1"; "- 1"; "+-1";
     "not-hex"; "0x0x1"; "ff"; "-0x0"; "-"; "0x-1"; "0x1 2"; "-_1"; "+0x_1";
     "  "; "0x3e8"]
  = [None; Some 0; None; Some (-1); Some 15; Some 255; Some 15; None; None;
     None; None; Some 255; None; Some 31; Some 0; Some 177; None; None; None;
     None; None; Some 255; Some 0; None; None; None; None; Some 1; None;
     Some 1000].
Proof. reflexivity. Qed.

Example hex_samples :
  map Py.hex [0; 255; -255; 1000; 16] = ["0x0"; "0xff"; "-0xff"; "0x3e8"; "0x10"].
Proof. reflexivity. Qed.

(** *** Python's [int(s, 16)] and [hex] *)

Section PyFacts.

Lemma string_app_assoc (a b c : string) : ((a +:+ b) +:+ c = a +:+ (b +:+ c)).
Proof.
  induction a as [|x a IH]; [reflexivity |].
  change (String x ((a +:+ b) +:+ c) = String x (a +:+ (b +:+ c))).
  now rewrite IH.
Qed.

Lemma string_app_nil_r (a : string) : (a +:+ "" = a).
Proof.
  induction a as [|x a IH]; [reflexivity |].
  change (String x (a +:+ "") = String x a).
  now rewrite IH.
Qed.

Lemma hex_digit_spec d :
  0 <= d < 16 ->
  Py.digit_value (Py.hex_digit d) = d /\
  Py.is_underscore (Py.hex_digit d) = false /\
  Py.is_space (Py.hex_digit d) = false /\
  Ascii.eqb (Py.hex_digit d) "+" = false /\
  Ascii.eqb (Py.hex_digit d) "-" = false.
Proof.
  intros Hd.
  assert (Hcases : d = 0 \/ d = 1 \/ d = 2 \/ d = 3 \/ d = 4 \/ d = 5 \/ d = 6 \/
                   d = 7 \/ d = 8 \/ d = 9 \/ d = 10 \/ d = 11 \/ d = 12 \/
                   d = 13 \/ d = 14 \/ d = 15) by lia.
  repeat (destruct Hcases as [-> | Hcases]; [vm_compute; repeat split; reflexivity |]).
  subst d. vm_compute. repeat split; reflexivity.
Qed.

Lemma shifted_zero fuel n :
  0 <= n < 16 ^ Z.of_nat fuel -> shifted 0 fuel n = n.
Proof.
  revert n. induction fuel as [|fuel IH]; intros n Hn.
  - simpl in *. lia.
  - simpl. destruct (n <? 16) eqn:E; [lia |].
    apply Z.ltb_ge in E. rewrite IH.
    + pose proof (Z.div_mod n 16). lia.
    + rewrite Nat2Z.inj_succ, Z.pow_succ_r in Hn by lia.
      split; [apply Z.div_pos; lia | apply Z.div_lt_upper_bound; lia].
Qed.

Lemma scan_hex_digits fuel : forall n prev moved acc rest,
  0 <= n < 16 ^ Z.of_nat (S fuel) ->
  Py.scan_digits prev moved acc (Py.hex_digits (S fuel) n +:+ rest)
  = Py.scan_digits false true (shifted acc (S fuel) n) rest.
Proof.
  assert (Hstep : forall d prev moved acc rest,
    0 <= d < 16 ->
    Py.scan_digits prev moved acc (String (Py.hex_digit d) EmptyString +:+ rest)
    = Py.scan_digits false true (acc * 16 + d) rest).
  { intros d prev moved acc rest Hd.
    destruct (hex_digit_spec d Hd) as (Hv & Hu & _).
    assert (Hlt : (d <? 16) = true) by (apply Z.ltb_lt; lia).
    change (String (Py.hex_digit d) EmptyString +:+ rest)
      with (String (Py.hex_digit d) rest).
    cbn [Py.scan_digits]. rewrite Hu, Hv, Hlt. reflexivity. }
  assert (Hdigits : forall f m, Py.hex_digits (S f) m =
    if m <? 16 then String (Py.hex_digit m) EmptyString
    else (Py.hex_digits f (m / 16) +:+ String (Py.hex_digit (m mod 16)) EmptyString))
    by reflexivity.
  assert (Hshift : forall a f m, shifted a (S f) m =
    if m <? 16 then a * 16 + m else shifted a f (m / 16) * 16 + m mod 16)
    by reflexivity.
  induction fuel as [|fuel IH]; intros n prev moved acc rest Hn;
    rewrite (Hdigits _ n), (Hshift _ _ n); destruct (n <? 16) eqn:E.
  - apply Z.ltb_lt in E. apply Hstep. lia.
  - apply Z.ltb_ge in E. change (16 ^ Z.of_nat 1) with 16 in Hn. lia.
  - apply Z.ltb_lt in E. apply Hstep. lia.
  - apply Z.ltb_ge in E.
    rewrite Nat2Z.inj_succ, Z.pow_succ_r in Hn by lia.
    rewrite string_app_assoc, IH
      by (split; [apply Z.div_pos; lia | apply Z.div_lt_upper_bound; lia]).
    apply Hstep. apply Z.mod_pos_bound. lia.
Qed.

Lemma hex_digits_head fuel : forall n,
  0 <= n ->
  exists d r, 0 <= d < 16 /\ Py.hex_digits (S fuel) n = String (Py.hex_digit d) r.
Proof.
  induction fuel as [|fuel IH]; intros n Hn; simpl.
  - destruct (n <? 16) eqn:E.
    + apply Z.ltb_lt in E. exists n, EmptyString. split; [lia | reflexivity].
    + exists (n mod 16), EmptyString.
      split; [apply Z.mod_pos_bound; lia | reflexivity].
  - destruct (n <? 16) eqn:E.
    + apply Z.ltb_lt in E. exists n, EmptyString. split; [lia | reflexivity].
    + destruct (IH (n / 16)) as (d & r & Hd & Hr); [apply Z.div_pos; lia |].
      simpl in Hr. rewrite Hr. simpl. eauto.
Qed.

Lemma log2_fuel m : 0 <= m -> 0 <= m < 16 ^ Z.of_nat (S (Z.to_nat (Z.log2 m))).
Proof.
  intros Hm. split; [lia |].
  rewrite Nat2Z.inj_succ, Z2Nat.id by apply Z.log2_nonneg.
  destruct (Z.eq_dec m 0) as [-> | Hne]; [reflexivity |].
  destruct (Z.log2_spec m) as [_ Hlt]; [lia |].
  eapply Z.lt_le_trans; [exact Hlt |].
  pose proof (Z.log2_nonneg m).
  replace 16 with (2 ^ 4) by reflexivity.
  rewrite <- Z.pow_mul_r by lia.
  apply Z.pow_le_mono_r; lia.
Qed.

Lemma int16_prefixed c r v :
  Py.is_underscore c = false ->
  Py.scan_digits false false 0 (String c r) = Some (v, true, EmptyString) ->
  Py.int16 (String "0" (String "x" (String c r))) = Some v /\
  Py.int16 (String "-" (String "0" (String "x" (String c r)))) = Some (- v).
Proof.
  intros Hu Hscan. unfold Py.int16.
  split.
  - cbn [Py.skip_spaces]. change (Py.is_space "0") with false. cbv iota.
    cbn [Py.strip_sign]. change (Ascii.eqb "0" "+") with false.
    change (Ascii.eqb "0" "-") with false. cbv iota.
    cbn [Py.strip_prefix]. change (Ascii.eqb "0" "0") with true.
    change (Ascii.eqb "x" "x") with true. cbn [andb orb]. rewrite Hu.
    cbn [Py.starts_with_underscore]. rewrite Hu, Hscan.
    cbn [Py.skip_spaces]. f_equal; lia.
  - cbn [Py.skip_spaces]. change (Py.is_space "-") with false. cbv iota.
    cbn [Py.strip_sign]. change (Ascii.eqb "-" "+") with false.
    change (Ascii.eqb "-" "-") with true. cbv iota.
    cbn [Py.strip_prefix]. change (Ascii.eqb "0" "0") with true.
    change (Ascii.eqb "x" "x") with true. cbn [andb orb]. rewrite Hu.
    cbn [Py.starts_with_underscore]. rewrite Hu, Hscan.
    cbn [Py.skip_spaces]. f_equal; lia.
Qed.

Lemma int16_digits m :
  0 <= m ->
  let digits := Py.hex_digits (S (Z.to_nat (Z.log2 m))) m in
  Py.int16 ("0x" +:+ digits) = Some m /\ Py.int16 ("-0x" +:+ digits) = Some (- m).
Proof.
  intros Hm digits.
  pose proof (log2_fuel m Hm) as Hfuel.
  destruct (hex_digits_head (Z.to_nat (Z.log2 m)) m Hm) as (d & r & Hd & Hr).
  destruct (hex_digit_spec d Hd) as (_ & Hu & _).
  pose proof (scan_hex_digits _ m false false 0 EmptyString Hfuel) as Hscan.
  pose proof (shifted_zero _ m Hfuel) as Hshift.
  rewrite string_app_nil_r, Hshift in Hscan.
  subst digits. rewrite Hr in *.
  exact (int16_prefixed _ _ _ Hu Hscan).
Qed.

(** What [hex] prints, [int(_, 16)] reads back. *)
Lemma int16_hex n : Py.int16 (Py.hex n) = Some n.
Proof.
  unfold Py.hex.
  destruct (int16_digits (Z.abs n) (Z.abs_nonneg n)) as [Hpos Hneg].
  destruct (n <? 0) eqn:E.
  - apply Z.ltb_lt in E. rewrite Hneg. f_equal. lia.
  - apply Z.ltb_ge in E. rewrite Hpos. f_equal. lia.
Qed.

End PyFacts.

(** *** The sign of a parsed integer *)

Section SignFacts.

Lemma digit_value_nonneg c : 0 <= Py.digit_value c.
Proof.
  unfold Py.digit_value.
  repeat match goal with
         | |- context [if ?b then _ else _] => destruct b eqn:?
         end; lia.
Qed.

Lemma scan_digits_nonneg s : forall prev moved acc v moved' rest,
  Py.scan_digits prev moved acc s = Some (v, moved', rest) -> 0 <= acc -> 0 <= v.
Proof.
  induction s as [|c s IH]; intros prev moved acc v moved' rest H Hacc; simpl in H.
  - destruct prev; [discriminate | congruence].
  - destruct (Py.is_underscore c).
    + destruct prev; [discriminate | eauto].
    + destruct (Py.digit_value c <? 16) eqn:E.
      * eapply IH; [exact H |]. pose proof (digit_value_nonneg c). lia.
      * destruct prev; [discriminate | congruence].
Qed.

Lemma int16_sign s v :
  Py.int16 s = Some v ->
  if has_minus_sign s then v <= 0 else 0 <= v.
Proof.
  unfold Py.int16, has_minus_sign, Py.strip_sign.
  destruct (Py.skip_spaces s) as [|c r].
  - simpl. discriminate.
  - destruct (Ascii.eqb c "+") eqn:Eplus.
    + apply Ascii.eqb_eq in Eplus. subst c. simpl Ascii.eqb.
      destruct (Py.starts_with_underscore _); [discriminate |].
      destruct (Py.scan_digits _ _ _ _) as [[[v0 [|]] rest] |] eqn:Hscan; try discriminate.
      destruct (Py.skip_spaces rest); [| discriminate].
      intros [= <-]. apply scan_digits_nonneg in Hscan; lia.
    + destruct (Ascii.eqb c "-") eqn:Eminus.
      * destruct (Py.starts_with_underscore _); [discriminate |].
        destruct (Py.scan_digits _ _ _ _) as [[[v0 [|]] rest] |] eqn:Hscan; try discriminate.
        destruct (Py.skip_spaces rest); [| discriminate].
        intros [= <-]. apply scan_digits_nonneg in Hscan; lia.
      * destruct (Py.starts_with_underscore _); [discriminate |].
        destruct (Py.scan_digits _ _ _ _) as [[[v0 [|]] rest] |] eqn:Hscan; try discriminate.
        destruct (Py.skip_spaces rest); [| discriminate].
        intros [= <-]. apply scan_digits_nonneg in Hscan; lia.
Qed.

Lemma supply_of_sign result_hex v :
  supply_of result_hex = Some v ->
  (forall s, result_hex = Some s -> has_minus_sign s = false) ->
  0 <= v.
Proof.
  unfold supply_of. destruct result_hex as [s |]; [| intros [= <-]; lia].
  intros H Hminus. destruct (_ || _); [injection H as <-; lia |].
  pose proof (int16_sign s v H) as Hs. rewrite (Hminus s eq_refl) in Hs. exact Hs.
Qed.

End SignFacts.

(** *** The retrying transport *)

Section TransportFacts.

Context {Net : Type}.
Variable post : Net -> payload -> http * Net.

Lemma posts_app (a b : list event) : posts (a ++ b) = posts a + posts b.
Proof. unfold posts. rewrite filter_app, length_app. lia. Qed.

Lemma oracle_calls_app method (a b : list event) :
  oracle_calls method (a ++ b) = oracle_calls method a + oracle_calls method b.
Proof. unfold oracle_calls. rewrite filter_app, length_app. lia. Qed.

Lemma posts_attempt_trace p delay k : forall attempt,
  posts (attempt_trace p delay attempt k) = Z.of_nat k.
Proof.
  induction k as [|k IH]; intros attempt; [reflexivity |].
  destruct k as [|k]; [reflexivity |].
  change (attempt_trace p delay attempt (S (S k)))
    with ([EvPost attempt p; EvSleep delay] ++ attempt_trace p delay (attempt + 1) (S k)).
  rewrite posts_app, IH. change (posts [EvPost attempt p; EvSleep delay]) with 1. lia.
Qed.

Lemma oracle_calls_later method p delay k : forall attempt,
  0 < attempt -> oracle_calls method (attempt_trace p delay attempt k) = 0.
Proof.
  assert (Hpost : forall attempt, 0 < attempt -> starts_call method (EvPost attempt p) = false).
  { intros attempt Ha. destruct p; simpl; [| reflexivity].
    replace (attempt =? 0) with false by (symmetry; apply Z.eqb_neq; lia). reflexivity. }
  induction k as [|k IH]; intros attempt Ha; [reflexivity |].
  destruct k as [|k].
  - unfold oracle_calls. simpl. rewrite filter_cons, Hpost by assumption. reflexivity.
  - change (attempt_trace p delay attempt (S (S k)))
      with ([EvPost attempt p; EvSleep delay] ++ attempt_trace p delay (attempt + 1) (S k)).
    rewrite oracle_calls_app, IH by lia.
    unfold oracle_calls. rewrite filter_cons, Hpost by assumption. reflexivity.
Qed.

(** The calls of [method] among the attempts of one call that starts at
    loop index 0: the call itself when the method is its own. *)
Lemma oracle_calls_attempts method r delay k :
  oracle_calls method (attempt_trace (Single r) delay 0 k)
  = if (0 <? Z.of_nat k) && String.eqb (req_method r) method then 1 else 0.
Proof.
  destruct k as [|k]; [reflexivity |].
  assert (Hhead : oracle_calls method [EvPost 0 (Single r)]
                  = if String.eqb (req_method r) method then 1 else 0).
  { unfold oracle_calls. rewrite filter_cons. simpl.
    destruct (String.eqb (req_method r) method); reflexivity. }
  replace (0 <? Z.of_nat (S k)) with true by (symmetry; apply Z.ltb_lt; lia).
  destruct k as [|k]; [exact Hhead |].
  change (attempt_trace (Single r) delay 0 (S (S k)))
    with ([EvPost 0 (Single r)] ++ EvSleep delay :: attempt_trace (Single r) delay (0 + 1) (S k)).
  rewrite oracle_calls_app, Hhead.
  change (EvSleep delay :: attempt_trace (Single r) delay (0 + 1) (S k))
    with ([EvSleep delay] ++ attempt_trace (Single r) delay (0 + 1) (S k)).
  rewrite oracle_calls_app, oracle_calls_later by lia.
  change (oracle_calls method [EvSleep delay]) with 0. simpl. lia.
Qed.

(** The loop of [call_rpc] and [call_rpc_batch]: it always returns, after
    [k] posts with a sleep between two of them; it returns [None] exactly
    when all its [todo] posts fail, and it has made them all then. *)
Lemma post_loop_spec p retries delay todo :
  0 <= delay ->
  forall attempt w,
  retries = attempt + Z.of_nat todo ->
  exists r w' k,
    post_loop post p retries delay attempt todo w = (Ret r, w') /\
    (k <= todo)%nat /\
    (todo <> O -> k <> O) /\
    trace w' = trace w ++ attempt_trace p delay attempt k /\
    (r = None <-> all_fail post p todo (net w) = true) /\
    (r = None -> k = todo).
Proof.
  intros Hdelay.
  assert (Hsleep : (delay <? 0) = false) by (apply Z.ltb_ge; exact Hdelay).
  induction todo as [|todo IH]; intros attempt w Hretries.
  - exists None, w, O. simpl. rewrite app_nil_r. repeat split; auto; lia.
  - cbn [post_loop]. unfold bind at 1, do_post. cbn [all_fail net trace].
    destruct (post (net w) p) as [[|b] n] eqn:Hpost.
    + destruct todo as [|todo].
      * replace (attempt <? retries - 1) with false by (symmetry; apply Z.ltb_ge; lia).
        exists None, (World n (trace w ++ [EvPost attempt p])), 1%nat.
        cbn. repeat split; auto; lia.
      * replace (attempt <? retries - 1) with true by (symmetry; apply Z.ltb_lt; lia).
        unfold bind at 1, sleep. rewrite Hsleep. unfold emit. cbn [net trace].
        set (w2 := World n ((trace w ++ [EvPost attempt p]) ++ [EvSleep delay])).
        destruct (IH (attempt + 1) w2 ltac:(lia)) as (r & w' & k & Hrun & Hk & Hk0 & Htr & Hnone & Hall).
        exists r, w', (S k). rewrite Hrun.
        split; [reflexivity |]. split; [lia |]. split; [lia |].
        split; [| split; [exact Hnone | intros Hr; rewrite (Hall Hr); reflexivity]].
        rewrite Htr. subst w2. cbn [trace].
        destruct k as [|k]; [exfalso; apply Hk0; [discriminate | reflexivity] |].
        rewrite <- !app_assoc. reflexivity.
    + exists (Some b), (World n (trace w ++ [EvPost attempt p])), 1%nat.
      cbn. repeat split; auto; try lia; try discriminate.
Qed.

(** A call makes at least one and at most three posts, and it returns. *)
Lemma call_rpc_spec method params w :
  let r := {| req_id := 1; req_method := method; req_params := params |} in
  exists b w' k,
    call_rpc post method params 3 1 w = (Ret b, w') /\
    (1 <= k <= 3)%nat /\
    trace w' = trace w ++ attempt_trace (Single r) 1 0 k.
Proof.
  intros r. unfold call_rpc.
  destruct (post_loop_spec (Single r) 3 1 (Z.to_nat 3) ltac:(lia) 0 w ltac:(reflexivity))
    as (b & w' & k & Hrun & Hk & Hk0 & Htr & _).
  exists b, w', k. change (Z.to_nat 3) with 3%nat in *.
  split; [exact Hrun |]. split; [| exact Htr].
  assert (k <> O) by (apply Hk0; discriminate). lia.
Qed.

End TransportFacts.

(** *** Bounded retries *)

Section Retries.

Context {Net : Type}.
Variable post : Net -> payload -> http * Net.



End Retries.


(** A negative delay: the sleep after the first failure raises, and no
    second post is made. *)
Example call_rpc_negative_delay :
  call_rpc (const_post HttpError) "eth_blockNumber" [] 2 (-1) (World tt [])
  = (Raise ValueError, World tt [EvPost 0 (Single latest_request)]).
Proof. reflexivity. Qed.

(** Three failures: three posts, two sleeps, [None]. *)
Example call_rpc_dead_endpoint :
  call_rpc (const_post HttpError) "eth_blockNumber" [] 3 1 (World tt [])
  = (Ret None,
     let p := Single {| req_id := 1; req_method := "eth_blockNumber"; req_params := [] |} in
     World tt [EvPost 0 p; EvSleep 1; EvPost 1 p; EvSleep 1; EvPost 2 p]).
Proof. reflexivity. Qed.

(** Two failures, then an answer: the third post is the last. *)
Example call_rpc_batch_third_attempt :
  let answer := BodyArray [ {| resp_id := Some 0; resp_result := Some "0x1" |} ] in
  call_rpc_batch script_post [] 3 1 (World [HttpError; HttpError; HttpOk answer] [])
  = (Ret (Some answer),
     World [] [EvPost 0 (Batch []); EvSleep 1; EvPost 1 (Batch []); EvSleep 1;
               EvPost 2 (Batch [])]).
Proof. reflexivity. Qed.

(** *** The binary search over any endpoint *)

Section SearchFacts.

Context {Net : Type}.
Variable post : Net -> payload -> http * Net.

Lemma search_unfold fuel target_date low high chosen :
  search post (S fuel) target_date low high chosen =
  if low <=? high then
    let mid := (low + high) / 2 in
    let* block_data := call_rpc post "eth_getBlockByNumber" [PStr (Py.hex mid); PBool false] 3 1 in
    match result_member block_data with
    | None => ret None
    | Some v =>
        let* timestamp := timestamp_of v in
        let* block_timestamp := int_str timestamp in
        let* block_date := date_of block_timestamp in
        if block_date =? target_date then ret (Some (mid, block_timestamp))
        else if block_date <? target_date then
          search post fuel target_date (mid + 1) high (Some (mid, block_timestamp))
        else search post fuel target_date low (mid - 1) chosen
    end
  else ret chosen.
Proof. reflexivity. Qed.

Lemma search_bound_nonneg size : 0 <= search_bound size.
Proof.
  unfold search_bound. destruct (size <=? 0); [lia |].
  pose proof (Z.log2_nonneg size). lia.
Qed.

Lemma search_bound_step size size' :
  1 <= size -> size' <= size / 2 -> 1 + search_bound size' <= search_bound size.
Proof.
  intros Hsize Hhalf. unfold search_bound.
  replace (size <=? 0) with false by (symmetry; apply Z.leb_gt; lia).
  destruct (size' <=? 0) eqn:E.
  - pose proof (Z.log2_nonneg size). lia.
  - apply Z.leb_gt in E.
    assert (Hpow : 2 ^ (Z.log2 size' + 1) <= size).
    { destruct (Z.log2_spec size' E) as [Hlow _].
      pose proof (Z.log2_nonneg size').
      rewrite Z.pow_add_r, Z.pow_1_r by lia.
      assert (2 * size' <= size) by (Z.to_euclidean_division_equations; lia).
      lia. }
    apply Z.log2_le_pow2 in Hpow; lia.
Qed.

Lemma midpoint_bounds low high :
  low <= high ->
  let mid := (low + high) / 2 in
  low <= mid <= high /\
  high - mid <= (high - low + 1) / 2 /\
  mid - low <= (high - low + 1) / 2.
Proof. intros H mid. subst mid. Z.to_euclidean_division_equations. lia. Qed.

(** The loop ends within its fuel whenever the fuel covers the candidates
    [low .. high], and it asks for at most [search_bound] block headers. *)
Lemma search_calls target_date fuel : forall low high chosen w,
  high - low + 1 <= Z.of_nat fuel ->
  exists r w' d,
    search post fuel target_date low high chosen w = (r, w') /\
    r <> OutOfFuel /\
    trace w' = trace w ++ d /\
    oracle_calls header d <= search_bound (high - low + 1) /\
    oracle_calls latest d = 0.
Proof.
  induction fuel as [|fuel IH]; intros low high chosen w Hfuel.
  - exists (Ret chosen), w, []. simpl.
    replace (low <=? high) with false by (symmetry; apply Z.leb_gt; lia).
    rewrite app_nil_r. repeat split; auto; try discriminate; apply search_bound_nonneg.
  - rewrite search_unfold. destruct (low <=? high) eqn:Hle.
    2:{ exists (Ret chosen), w, []. rewrite app_nil_r.
        repeat split; auto; try discriminate; apply search_bound_nonneg. }
    apply Z.leb_le in Hle.
    destruct (midpoint_bounds low high Hle) as (Hmid & Hright & Hleft).
    set (mid := (low + high) / 2) in *. cbv zeta.
    destruct (call_rpc_spec post "eth_getBlockByNumber" [PStr (Py.hex mid); PBool false] w)
      as (b & w1 & k & Hcall & Hk & Htr).
    cbv zeta in Htr.
    assert (Hone : oracle_calls header (attempt_trace (Single (block_request mid)) 1 0 k) = 1).
    { rewrite oracle_calls_attempts.
      replace (0 <? Z.of_nat k) with true by (symmetry; apply Z.ltb_lt; lia). reflexivity. }
    assert (Hzero : oracle_calls latest (attempt_trace (Single (block_request mid)) 1 0 k) = 0).
    { rewrite oracle_calls_attempts. rewrite andb_false_r. reflexivity. }
    assert (Hbound : 1 <= search_bound (high - low + 1)).
    { pose proof (search_bound_step (high - low + 1) 0 ltac:(lia)
                    ltac:(Z.to_euclidean_division_equations; lia)) as H.
      pose proof (search_bound_nonneg 0). lia. }
    assert (Hstop : forall r : result (option (Z * Z)), r <> OutOfFuel ->
      exists r' w' d, (r, w1) = (r', w') /\ r' <> OutOfFuel /\ trace w' = trace w ++ d /\
        oracle_calls header d <= search_bound (high - low + 1) /\ oracle_calls latest d = 0).
    { intros r Hr. exists r, w1, (attempt_trace (Single (block_request mid)) 1 0 k).
      rewrite Hone, Hzero. repeat split; auto. }
    assert (Hrec : forall low' high' chosen',
      high' - low' + 1 <= (high - low + 1) / 2 ->
      high' - low' + 1 <= Z.of_nat fuel ->
      exists r' w' d, search post fuel target_date low' high' chosen' w1 = (r', w') /\
        r' <> OutOfFuel /\ trace w' = trace w ++ d /\
        oracle_calls header d <= search_bound (high - low + 1) /\ oracle_calls latest d = 0).
    { intros low' high' chosen' Hhalf Hfuel'.
      destruct (IH low' high' chosen' w1 Hfuel') as (r' & w' & d & Hrun & Hr & Htr' & Hh & Hl).
      exists r', w', (attempt_trace (Single (block_request mid)) 1 0 k ++ d).
      split; [exact Hrun |]. split; [exact Hr |].
      split; [rewrite Htr', Htr, app_assoc; reflexivity |].
      rewrite !oracle_calls_app, Hone, Hzero, Hl. split; [| reflexivity].
      pose proof (search_bound_step (high - low + 1) (high' - low' + 1) ltac:(lia) Hhalf).
      lia. }
    unfold bind at 1. rewrite Hcall.
    destruct (result_member b) as [v |]; [| apply Hstop; discriminate].
    unfold bind at 1, timestamp_of.
    destruct v as [| s | timestamp]; try (apply Hstop; discriminate).
    unfold ret at 1, bind at 1, int_str.
    destruct (Py.int16 timestamp) as [block_timestamp |]; [| apply Hstop; discriminate].
    unfold ret at 1, bind at 1, date_of.
    destruct (Py.utc_date block_timestamp) as [block_date |]; [| apply Hstop; discriminate].
    unfold ret at 1.
    destruct (block_date =? target_date); [apply Hstop; discriminate |].
    destruct (block_date <? target_date); apply Hrec; lia.
Qed.

End SearchFacts.

(** *** Resolution over any endpoint *)

Section ResolveFacts.

Context {Net : Type}.
Variable post : Net -> payload -> http * Net.

Lemma search_bound_log2_up size : search_bound size <= Z.log2_up size + 1.
Proof.
  unfold search_bound. destruct (size <=? 0).
  - pose proof (Z.log2_up_nonneg size). lia.
  - pose proof (Z.le_log2_log2_up size). lia.
Qed.

(** C8: [get_closest_block_timestamp] ends (the fuel of the loop is never
    used up) after one latest-block call and at most
    [log2_up (head + 1) + 1] block-header calls, where [head] is the head
    number the latest-block call reported; without a head number it asks
    for no header at all. *)
Theorem resolve_terminates_log_calls target_date (w : world Net) :
  exists r w' d,
    get_closest_block_timestamp post target_date w = (r, w') /\
    r <> OutOfFuel /\
    trace w' = trace w ++ d /\
    oracle_calls latest d = 1 /\
    oracle_calls header d <=
      match reported_head (fst (call_rpc post latest [] 3 1 w)) with
      | Some head => Z.log2_up (head + 1) + 1
      | None => 0
      end.
Proof.
  unfold get_closest_block_timestamp, latest at 2.
  destruct (call_rpc_spec post "eth_blockNumber" [] w) as (b & w1 & k & Hcall & Hk & Htr).
  cbv zeta in Htr. fold latest_request in Htr.
  assert (Hone : oracle_calls latest (attempt_trace (Single latest_request) 1 0 k) = 1).
  { rewrite oracle_calls_attempts.
    replace (0 <? Z.of_nat k) with true by (symmetry; apply Z.ltb_lt; lia). reflexivity. }
  assert (Hzero : oracle_calls header (attempt_trace (Single latest_request) 1 0 k) = 0).
  { rewrite oracle_calls_attempts. rewrite andb_false_r. reflexivity. }
  assert (Hstop : forall (r : result (option (Z * Z))) bound, r <> OutOfFuel -> 0 <= bound ->
    exists r' w' d, (r, w1) = (r', w') /\ r' <> OutOfFuel /\ trace w' = trace w ++ d /\
      oracle_calls latest d = 1 /\ oracle_calls header d <= bound).
  { intros r bound Hr Hb. exists r, w1, (attempt_trace (Single latest_request) 1 0 k).
    rewrite Hone, Hzero. repeat split; auto. }
  unfold bind at 1. rewrite Hcall. cbn [fst reported_head].
  destruct (result_member b) as [v |]; [| apply Hstop; [discriminate | lia]].
  unfold bind at 1, int_value.
  destruct v as [| s | timestamp]; try (apply Hstop; [discriminate | lia]).
  unfold int_str.
  destruct (Py.int16 s) as [head |]; [| apply Hstop; [discriminate | lia]].
  unfold ret at 1.
  destruct (search_calls post target_date (Z.to_nat (head + 1)) 0 head None w1 ltac:(lia))
    as (r & w' & d & Hrun & Hr & Htr' & Hh & Hl).
  exists r, w', (attempt_trace (Single latest_request) 1 0 k ++ d).
  split; [exact Hrun |]. split; [exact Hr |].
  split; [rewrite Htr', Htr, app_assoc; reflexivity |].
  rewrite !oracle_calls_app, Hone, Hzero, Hl. split; [reflexivity |].
  replace (head - 0 + 1) with (head + 1) in Hh by lia.
  pose proof (search_bound_log2_up (head + 1)). lia.
Qed.

(** C5: when the latest-block call gives no result (the call is exhausted,
    or its reply carries no ["result"]), [get_closest_block_timestamp]
    returns [None] in the very state that call left: nothing more is posted.
    In particular three failed posts are the whole run.  And when a
    block-header call of the loop gives no result, the loop returns [None]
    in the state that call left, whatever candidate it had recorded. *)
Theorem resolve_unavailable_stops target_date :
  (forall (w : world Net) b w',
      call_rpc post latest [] 3 1 w = (Ret b, w') ->
      result_member b = None ->
      get_closest_block_timestamp post target_date w = (Ret None, w')) /\
  (forall (w : world Net),
      all_fail post (Single latest_request) 3 (net w) = true ->
      exists w',
        get_closest_block_timestamp post target_date w = (Ret None, w') /\
        trace w' = trace w ++ attempt_trace (Single latest_request) 1 0 3) /\
  (forall fuel low high chosen (w : world Net) b w',
      low <= high ->
      call_rpc post header [PStr (Py.hex ((low + high) / 2)); PBool false] 3 1 w = (Ret b, w') ->
      result_member b = None ->
      search post (S fuel) target_date low high chosen w = (Ret None, w')).
Proof.
  split; [| split].
  - intros w b w' Hcall Hnone.
    unfold get_closest_block_timestamp, bind. unfold latest in Hcall.
    rewrite Hcall, Hnone. reflexivity.
  - intros w Hfail.
    destruct (post_loop_spec post (Single latest_request) 3 1 3%nat ltac:(lia) 0 w eq_refl)
      as (b & w' & k & Hrun & _ & _ & Htr & Hnone & Hall).
    apply Hnone in Hfail. subst b. rewrite (Hall eq_refl) in Htr.
    exists w'. split; [| exact Htr].
    unfold get_closest_block_timestamp, bind, call_rpc.
    change (Z.to_nat 3) with 3%nat. fold latest. fold latest_request.
    rewrite Hrun. reflexivity.
  - intros fuel low high chosen w b w' Hle Hcall Hnone.
    rewrite search_unfold.
    replace (low <=? high) with true by (symmetry; apply Z.leb_le; exact Hle).
    cbv zeta. unfold bind. unfold header in Hcall. rewrite Hcall, Hnone. reflexivity.
Qed.

End ResolveFacts.

Lemma resolve_unavailable_stops_witness :
  let dead := const_post HttpError in
  let three p := [EvPost 0 (Single p); EvSleep 1; EvPost 1 (Single p); EvSleep 1;
                  EvPost 2 (Single p)] in
  get_closest_block_timestamp dead 19727 w0 = (Ret None, World tt (three latest_request)) /\
  (exists w', get_closest_block_timestamp dead 19727 w0 = (Ret None, w') /\
              trace w' = trace w0 ++ attempt_trace (Single latest_request) 1 0 3) /\
  search dead 1 19727 0 100 (Some (7, 7)) w0 = (Ret None, World tt (three (block_request 50))).
Proof.
  intros dead three.
  destruct (resolve_unavailable_stops dead 19727) as (Hlatest & Hfail & Hheader).
  split; [| split].
  - exact (Hlatest w0 None _ eq_refl eq_refl).
  - exact (Hfail w0 eq_refl).
  - exact (Hheader O 0 100 (Some (7, 7)) w0 None _ ltac:(lia) eq_refl eq_refl).
Defined.

(** A header call that fails in the middle of a search ends the search:
    the head is 100, the header of block 50 arrives, that of block 24 never
    does. *)
Example resolve_header_unavailable :
  let head := HttpOk (BodyObject {| reply_result := Some (VStr "0x64") |}) in
  let block50 := HttpOk (BodyObject {| reply_result := Some (VBlock "0x7fffffff") |}) in
  let '(r, w') := get_closest_block_timestamp script_post 19727
                    (World [head; block50] []) in
  r = Ret None /\
  oracle_calls latest (trace w') = 1 /\
  oracle_calls header (trace w') = 2 /\
  posts (trace w') = 5.
Proof. vm_compute. repeat split; reflexivity. Qed.

(** *** Decoding a batch reply *)

Section ReaderFacts.

Variable tokens : list token.

Lemma enumerate_fold (l : list token) : forall k (m0 : gmap Z token) i,
  foldl (fun m it => <[fst it := snd it]> m) m0 (enumerate_from k l) !! i
  = if (k <=? i) && (i <? k + Z.of_nat (length l)) then l !! Z.to_nat (i - k)
    else m0 !! i.
Proof.
  induction l as [|x l IH]; intros k m0 i; cbn [enumerate_from foldl length fst snd].
  - replace ((k <=? i) && (i <? k + Z.of_nat 0)) with false; [reflexivity |].
    symmetry. apply andb_false_iff. destruct (Z.leb_spec k i); [right | left; reflexivity].
    apply Z.ltb_ge. lia.
  - rewrite IH.
    destruct (Z.leb_spec (k + 1) i) as [H1 | H1];
      destruct (Z.ltb_spec i (k + 1 + Z.of_nat (length l))) as [H2 | H2]; cbn [andb].
    + replace ((k <=? i) && (i <? k + Z.of_nat (S (length l)))) with true
        by (symmetry; apply andb_true_iff; split; [apply Z.leb_le | apply Z.ltb_lt]; lia).
      replace (Z.to_nat (i - k)) with (S (Z.to_nat (i - (k + 1)))) by lia. reflexivity.
    + replace ((k <=? i) && (i <? k + Z.of_nat (S (length l)))) with false
        by (symmetry; apply andb_false_iff; right; apply Z.ltb_ge; lia).
      apply lookup_insert_ne. lia.
    + destruct (Z.eq_dec i k) as [-> | Hne].
      * replace ((k <=? k) && (k <? k + Z.of_nat (S (length l)))) with true
          by (symmetry; apply andb_true_iff; split; [apply Z.leb_le | apply Z.ltb_lt]; lia).
        replace (Z.to_nat (k - k)) with O by lia. apply lookup_insert_eq.
      * replace ((k <=? i) && (i <? k + Z.of_nat (S (length l)))) with false
          by (symmetry; apply andb_false_iff; left; apply Z.leb_gt; lia).
        apply lookup_insert_ne. lia.
    + lia.
Qed.

(** [id_to_token] binds the position of each token to the token. *)
Lemma id_to_token_lookup i :
  id_to_token tokens !! i = if 0 <=? i then tokens !! Z.to_nat i else None.
Proof.
  unfold id_to_token, enumerate. rewrite enumerate_fold.
  destruct (Z.leb_spec 0 i) as [H0 | H0]; cbn [andb]; [| apply lookup_empty].
  replace (i - 0) with i by lia.
  destruct (Z.ltb_spec i (0 + Z.of_nat (length tokens))) as [H1 | H1]; [reflexivity |].
  rewrite lookup_empty. symmetry. apply lookup_ge_None. lia.
Qed.

Lemma id_to_token_position (i : nat) :
  id_to_token tokens !! Z.of_nat i = tokens !! i.
Proof.
  rewrite id_to_token_lookup.
  replace (0 <=? Z.of_nat i) with true by (symmetry; apply Z.leb_le; lia).
  rewrite Nat2Z.id. reflexivity.
Qed.

Lemma record_response_answered m resp :
  record_response tokens m resp =
  match answered_name tokens resp with
  | Some k => <[k := supply_of (resp_result resp)]> m
  | None => m
  end.
Proof.
  unfold record_response, answered_name.
  destruct (resp_id resp ≫= _); reflexivity.
Qed.

Lemma decode_responses_snoc rs resp :
  decode_responses tokens (rs ++ [resp])
  = record_response tokens (decode_responses tokens rs) resp.
Proof. unfold decode_responses. apply foldl_snoc. Qed.

Lemma answered_cons resp rs :
  omap (answered_name tokens) (resp :: rs)
  = match answered_name tokens resp with
    | Some k => k :: omap (answered_name tokens) rs
    | None => omap (answered_name tokens) rs
    end.
Proof. reflexivity. Qed.

(** Reordering responses that answer pairwise different queries does not
    change what the loop builds. *)
Lemma record_responses_permutation rs rs' :
  rs ≡ₚ rs' ->
  NoDup (omap (answered_name tokens) rs) ->
  forall m0, foldl (record_response tokens) m0 rs = foldl (record_response tokens) m0 rs'.
Proof.
  induction 1 as [| x l l' Hperm IH | x y l | l l' l'' H1 IH1 H2 IH2]; intros Hnd m0.
  - reflexivity.
  - cbn [foldl]. apply IH.
    rewrite answered_cons in Hnd. destruct (answered_name tokens x); [| exact Hnd].
    apply NoDup_cons in Hnd. apply Hnd.
  - cbn [foldl]. f_equal. rewrite !record_response_answered.
    rewrite !answered_cons in Hnd.
    destruct (answered_name tokens y) as [ky |], (answered_name tokens x) as [kx |];
      try reflexivity.
    apply insert_insert_ne. apply NoDup_cons in Hnd as [Hnotin _].
    intros ->. apply Hnotin. left.
  - rewrite IH1 by exact Hnd. apply IH2. rewrite <- H1. exact Hnd.
Qed.

(** Whatever the loop stores was decoded from one of the responses. *)
Lemma decode_responses_origin rs : forall k x,
  decode_responses tokens rs !! k = Some x ->
  exists resp, resp ∈ rs /\ answered_name tokens resp = Some k /\
               x = supply_of (resp_result resp).
Proof.
  induction rs as [|resp rs IH] using rev_ind; intros k x Hk.
  - unfold decode_responses in Hk. cbn in Hk. rewrite lookup_empty in Hk. discriminate.
  - rewrite decode_responses_snoc, record_response_answered in Hk.
    destruct (answered_name tokens resp) as [k' |] eqn:Hans.
    + destruct (decide (k' = k)) as [-> | Hne].
      * rewrite lookup_insert_eq in Hk. injection Hk as <-.
        exists resp. split; [apply elem_of_app; right; left | auto].
      * rewrite lookup_insert_ne in Hk by exact Hne.
        destruct (IH k x Hk) as (r & Hin & Hr). exists r.
        split; [apply elem_of_app; left; exact Hin | exact Hr].
    + destruct (IH k x Hk) as (r & Hin & Hr). exists r.
      split; [apply elem_of_app; left; exact Hin | exact Hr].
Qed.

(** The entry of a query is decoded from the last response that carries
    the query's id, and from nothing else. *)
Lemma decode_responses_lookup (i : nat) t rs :
  NoDup (name <$> tokens) ->
  tokens !! i = Some t ->
  decode_responses tokens rs !! name t
  = (fun resp => supply_of (resp_result resp))
      <$> last (responses_for (Z.of_nat i) rs).
Proof.
  intros Hnd Ht. unfold responses_for.
  induction rs as [|resp rs IH] using rev_ind.
  - unfold decode_responses. cbn. apply lookup_empty.
  - rewrite decode_responses_snoc, record_response_answered, filter_app.
    unfold answered_name.
    destruct (resp_id resp) as [z |] eqn:Hid; cbn [mbind option_bind].
    + rewrite id_to_token_lookup.
      destruct (decide (z = Z.of_nat i)) as [-> | Hne].
      * replace (0 <=? Z.of_nat i) with true by (symmetry; apply Z.leb_le; lia).
        rewrite Nat2Z.id, Ht. cbn [fmap option_fmap option_map].
        rewrite lookup_insert_eq.
        rewrite (filter_cons_True _ resp []) by exact Hid.
        rewrite filter_nil, last_snoc. reflexivity.
      * rewrite (filter_cons_False _ resp []) by congruence.
        rewrite filter_nil, app_nil_r.
        destruct (0 <=? z) eqn:Hz; [| exact IH].
        destruct (tokens !! Z.to_nat z) as [t' |] eqn:Ht'; [| exact IH].
        cbn [fmap option_fmap option_map].
        rewrite lookup_insert_ne; [exact IH |].
        intros Hname. apply Hne.
        assert (Z.to_nat z = i).
        { apply (NoDup_lookup (name <$> tokens) _ _ (name t) Hnd);
            rewrite list_lookup_fmap; [rewrite Ht' | rewrite Ht]; cbn; congruence. }
        apply Z.leb_le in Hz. lia.
    + rewrite (filter_cons_False _ resp []) by congruence.
      rewrite filter_nil, app_nil_r. exact IH.
Qed.

(** A name that belongs to no token is never bound. *)
Lemma decode_responses_foreign rs k :
  k ∉ (name <$> tokens) -> decode_responses tokens rs !! k = None.
Proof.
  intros Hk. destruct (decode_responses tokens rs !! k) as [x |] eqn:E; [| reflexivity].
  destruct (decode_responses_origin rs k x E) as (resp & _ & Hans & _).
  exfalso. apply Hk. unfold answered_name in Hans.
  destruct (resp_id resp) as [z |]; [| discriminate]. cbn in Hans.
  rewrite id_to_token_lookup in Hans.
  destruct (0 <=? z); [| discriminate].
  destruct (tokens !! Z.to_nat z) as [t |] eqn:Ht; [| discriminate].
  injection Hans as <-. apply list_elem_of_fmap. exists t.
  split; [reflexivity | eapply list_elem_of_lookup_2; exact Ht].
Qed.

Lemma enumerate_from_elem (l : list token) : forall k (i : nat) t,
  l !! i = Some t -> (k + Z.of_nat i, t) ∈ enumerate_from k l.
Proof.
  induction l as [|x l IH]; intros k i t Hi; [discriminate |].
  destruct i as [|i]; cbn [enumerate_from].
  - injection Hi as ->. replace (k + Z.of_nat 0) with k by lia. left.
  - right. replace (k + Z.of_nat (S i)) with (k + 1 + Z.of_nat i) by lia.
    apply IH. exact Hi.
Qed.

(** A response that matches no request of the batch is correlated with no
    query. *)
Lemma unmatched_answers_nothing block_number resp :
  unmatched (batch_payload tokens block_number) resp ->
  answered_name tokens resp = None.
Proof.
  intros Hun. unfold answered_name.
  destruct (resp_id resp) as [z |] eqn:Hid; [| reflexivity]. cbn.
  rewrite id_to_token_lookup.
  destruct (0 <=? z) eqn:Hz; [| reflexivity].
  destruct (tokens !! Z.to_nat z) as [t |] eqn:Ht; [| reflexivity].
  exfalso. apply Z.leb_le in Hz.
  apply (Hun (supply_request block_number (z, t))); [| exact Hid].
  unfold batch_payload. apply list_elem_of_fmap. exists (z, t).
  split; [reflexivity |].
  pose proof (enumerate_from_elem tokens 0 (Z.to_nat z) t Ht) as Hin.
  replace (0 + Z.of_nat (Z.to_nat z)) with z in Hin by lia. exact Hin.
Qed.

Lemma decode_responses_skip l1 resp l2 :
  answered_name tokens resp = None ->
  decode_responses tokens (l1 ++ resp :: l2) = decode_responses tokens (l1 ++ l2).
Proof.
  intros Hans. unfold decode_responses. rewrite !foldl_app. cbn [foldl].
  rewrite record_response_answered, Hans. reflexivity.
Qed.

Context {Net : Type}.
Variable post : Net -> payload -> http * Net.

(** What [get_token_total_supplies] makes of the outcome of its batch call. *)
Lemma get_token_total_supplies_run block_number (w : world Net) b w' :
  call_rpc_batch post (batch_payload tokens block_number) 3 1 w = (Ret b, w') ->
  get_token_total_supplies post tokens block_number w =
  (match b with
   | None => Ret (all_unavailable tokens)
   | Some (BodyArray rs) => Ret (decode_responses tokens rs)
   | Some (BodyObject _) => Raise AttributeError
   end, w').
Proof.
  intros Hcall. unfold get_token_total_supplies, bind. rewrite Hcall.
  destruct b as [[r | rs] |]; reflexivity.
Qed.

End ReaderFacts.

(** *** The batched reader *)

Section ReaderClaims.

Context {Net : Type}.

(** C2, as amended: a response for query [t] binds the name of [t], and no
    other name, to the value decoded from its result.  An absent result,
    ["0x"] and ["0x0"] decode to 0; any other string decodes as
    [int(s, 16)] reads it, so that what [hex] prints for an integer [n],
    negative ones included, decodes to [n], and a string that [int] rejects
    decodes to [None]. *)
Theorem supply_decoding tokens rs resp (i : nat) t :
  tokens !! i = Some t ->
  resp_id resp = Some (Z.of_nat i) ->
  let m := decode_responses tokens (rs ++ [resp]) in
  (forall k, k <> name t -> m !! k = decode_responses tokens rs !! k) /\
  match resp_result resp with
  | None => m !! name t = Some (Some 0)
  | Some s =>
      (s = "0x" \/ s = "0x0" -> m !! name t = Some (Some 0)) /\
      (s <> "0x" -> s <> "0x0" -> m !! name t = Some (Py.int16 s)) /\
      (forall n, s = Py.hex n -> m !! name t = Some (Some n)) /\
      (Py.int16 s = None -> s <> "0x" -> m !! name t = Some None)
  end.
Proof.
  intros Ht Hid m. subst m.
  rewrite decode_responses_snoc, record_response_answered.
  unfold answered_name. rewrite Hid. cbn [mbind option_bind].
  rewrite id_to_token_position, Ht. cbn [fmap option_fmap option_map].
  split; [intros k Hk; apply lookup_insert_ne; congruence |].
  rewrite lookup_insert_eq. unfold supply_of.
  destruct (resp_result resp) as [s |]; [| reflexivity].
  assert (Hraw : s <> "0x" -> s <> "0x0" ->
    (if String.eqb s "0x" || String.eqb s "0x0" then Some 0 else Py.int16 s) = Py.int16 s).
  { intros H1 H2. apply String.eqb_neq in H1, H2. rewrite H1, H2. reflexivity. }
  split; [| split; [| split]].
  - intros [-> | ->]; reflexivity.
  - intros H1 H2. rewrite Hraw by assumption. reflexivity.
  - intros n ->. destruct (String.eqb (Py.hex n) "0x" || String.eqb (Py.hex n) "0x0") eqn:E.
    + apply orb_true_iff in E as [E | E]; apply String.eqb_eq in E;
        pose proof (int16_hex n) as Hn; rewrite E in Hn; vm_compute in Hn; congruence.
    + rewrite int16_hex. reflexivity.
  - intros Hnone H1. destruct (String.eqb s "0x0") eqn:E.
    + apply String.eqb_eq in E. subst s. vm_compute in Hnone. discriminate.
    + apply String.eqb_neq in H1. rewrite H1. cbn [orb]. rewrite Hnone. reflexivity.
Qed.

Variable post : Net -> payload -> http * Net.

(** C4, as amended: when the batch call delivers the responses [rs], the
    reader returns a mapping (it does not raise); a response whose id is
    the id of no submitted request can be dropped from [rs] without
    changing the mapping; the entry of each query is decoded from the last
    response that carries the query's id, whatever the other responses
    are; and the name of a query that no response carries is left out of
    the mapping: it is not bound, the caller's [get] reads [None] for it,
    and the completeness test does not see it, so that a mapping that is
    not empty and has no [None] entry is what
    [get_token_total_supplies_with_retries] returns at its first attempt,
    with the names without response still not bound. *)
Theorem responses_correlated_by_id tokens block_number (w : world Net) rs w' :
  NoDup (name <$> tokens) ->
  call_rpc_batch post (batch_payload tokens block_number) 3 1 w
    = (Ret (Some (BodyArray rs)), w') ->
  exists m,
    get_token_total_supplies post tokens block_number w = (Ret m, w') /\
    (forall l1 resp l2,
        rs = l1 ++ resp :: l2 ->
        unmatched (batch_payload tokens block_number) resp ->
        m = decode_responses tokens (l1 ++ l2)) /\
    (forall (i : nat) t,
        tokens !! i = Some t ->
        m !! name t = (fun resp => supply_of (resp_result resp))
                        <$> last (responses_for (Z.of_nat i) rs)) /\
    (forall (i : nat) t,
        tokens !! i = Some t ->
        responses_for (Z.of_nat i) rs = [] ->
        m !! name t = None /\ supplies_get m (name t) = None) /\
    (forall max_retries delay,
        0 < max_retries ->
        complete m = true ->
        get_token_total_supplies_with_retries post tokens block_number max_retries delay w
          = (Ret (Some m), w')).
Proof.
  intros Hnd Hcall. exists (decode_responses tokens rs).
  pose proof (get_token_total_supplies_run tokens post block_number w _ w' Hcall) as Hrun.
  split; [exact Hrun |].
  split; [| split; [| split]].
  4:{ intros max_retries delay Hpos Hc.
      unfold get_token_total_supplies_with_retries.
      destruct (Z.to_nat max_retries) as [|todo] eqn:Htodo; [lia |].
      cbn [retry_loop]. unfold bind at 1. rewrite Hrun, Hc. reflexivity. }
  - intros l1 resp l2 -> Hun. apply decode_responses_skip.
    exact (unmatched_answers_nothing tokens block_number resp Hun).
  - intros i t Ht. apply decode_responses_lookup; assumption.
  - intros i t Ht Hnone.
    assert (Hk : decode_responses tokens rs !! name t = None).
    { rewrite (decode_responses_lookup tokens i t rs Hnd Ht), Hnone. reflexivity. }
    split; [exact Hk |]. unfold supplies_get. rewrite Hk. reflexivity.
Qed.

Variable post' : Net -> payload -> http * Net.

(** C7, as amended: two batch replies that are permutations of each other
    decode to the same mapping, provided no two responses are correlated
    with the same query. *)
Theorem reordered_responses_same_mapping tokens block_number
    (w1 w2 : world Net) rs1 rs2 w1' w2' :
  call_rpc_batch post (batch_payload tokens block_number) 3 1 w1
    = (Ret (Some (BodyArray rs1)), w1') ->
  call_rpc_batch post' (batch_payload tokens block_number) 3 1 w2
    = (Ret (Some (BodyArray rs2)), w2') ->
  rs1 ≡ₚ rs2 ->
  NoDup (omap (answered_name tokens) rs1) ->
  fst (get_token_total_supplies post tokens block_number w1)
  = fst (get_token_total_supplies post' tokens block_number w2).
Proof.
  intros H1 H2 Hperm Hnd.
  rewrite (get_token_total_supplies_run tokens post block_number w1 _ w1' H1).
  rewrite (get_token_total_supplies_run tokens post' block_number w2 _ w2' H2).
  cbn [fst]. f_equal. unfold decode_responses.
  apply record_responses_permutation; assumption.
Qed.

(** C9, as amended: a value of the mapping is negative only if the result
    it was decoded from carries a minus sign; when no result of the reply
    does, every decoded value is a non-negative integer. *)
Theorem decoded_supplies_nonnegative tokens block_number (w : world Net) m w' k v :
  get_token_total_supplies post tokens block_number w = (Ret m, w') ->
  (forall rs resp s,
      fst (call_rpc_batch post (batch_payload tokens block_number) 3 1 w)
        = Ret (Some (BodyArray rs)) ->
      resp ∈ rs -> resp_result resp = Some s -> has_minus_sign s = false) ->
  m !! k = Some (Some v) ->
  0 <= v.
Proof.
  intros Hrun Hsign Hk.
  destruct (call_rpc_batch post (batch_payload tokens block_number) 3 1 w)
    as [[b | e |] w1] eqn:Hcall.
  - rewrite (get_token_total_supplies_run tokens post block_number w b w1 Hcall) in Hrun.
    destruct b as [[r | rs] |]; [discriminate | |]; injection Hrun as <- <-.
    + destruct (decode_responses_origin tokens rs k (Some v) Hk) as (resp & Hin & _ & Hv).
      symmetry in Hv. apply (supply_of_sign _ _ Hv).
      intros s Hs. exact (Hsign rs resp s eq_refl Hin Hs).
    + exfalso. clear Hsign Hcall.
      unfold all_unavailable in Hk.
      assert (Hnone : forall l (m0 : gmap string (option Z)),
        (forall x, m0 !! k = Some x -> x = None) ->
        forall x, foldl (fun m token => <[name token := None]> m) m0 l !! k = Some x -> x = None).
      { induction l as [|y l IH]; intros m0 Hm0 x; cbn [foldl]; [apply Hm0 |].
        apply IH. intros x'. destruct (decide (name y = k)) as [<- | Hne].
        - rewrite lookup_insert_eq. congruence.
        - rewrite lookup_insert_ne by exact Hne. apply Hm0. }
      pose proof (Hnone tokens ∅ ltac:(intros x; rewrite lookup_empty; discriminate) _ Hk).
      discriminate.
  - unfold get_token_total_supplies, bind in Hrun. rewrite Hcall in Hrun. discriminate.
  - unfold get_token_total_supplies, bind in Hrun. rewrite Hcall in Hrun. discriminate.
Qed.

End ReaderClaims.

Section RetryClaims.

Context {Net : Type}.
Variable post : Net -> payload -> http * Net.
Variable tokens : list token.

Lemma retry_loop_complete block_number delay todo : forall (w : world Net) m w',
  retry_loop post tokens block_number delay todo w = (Ret (Some m), w') ->
  complete m = true.
Proof.
  induction todo as [|todo IH]; intros w m w' Hrun; cbn [retry_loop] in Hrun.
  - discriminate.
  - unfold bind at 1 in Hrun.
    destruct (get_token_total_supplies post tokens block_number w) as [[m1 | e |] w1];
      try discriminate.
    destruct (complete m1) eqn:Hc.
    + injection Hrun as <- <-. exact Hc.
    + unfold bind, sleep in Hrun.
      destruct (delay <? 0); [discriminate |].
      unfold emit in Hrun. eapply IH. exact Hrun.
Qed.



End RetryClaims.

(** *** The reader on concrete replies *)

Lemma TOKENS_names_distinct : NoDup (name <$> TOKENS).
Proof. apply (bool_decide_unpack _). vm_compute. exact I. Defined.

Lemma supply_decoding_witness :
  decode_responses TOKENS ([response 0 "0x1"] ++ [response 1 "0x3e8"]) !! "USDT"
    = Some (Some 1000) /\
  decode_responses TOKENS ([response 0 "0x1"] ++ [response 1 "0x3e8"]) !! "USDC"
    = Some (Some 1).
Proof.
  destruct (supply_decoding TOKENS [response 0 "0x1"] (response 1 "0x3e8") 1
              {| name := "USDT"; contract := "0xB75D0B03c06A926e488e2659DF1A861F860bD3d1";
                 decimals := 6 |} eq_refl eq_refl) as [Hothers Hvalue].
  split.
  - apply Hvalue. reflexivity.
  - rewrite Hothers by discriminate. reflexivity.
Defined.

(** The minus sign is read: the result ["-0xa"] is neither rejected nor
    decoded to an unsigned value. *)
Lemma supply_decoding_counterexample :
  decode_responses TOKENS [response 0 "-0xa"] !! "USDC" = Some (Some (-10)) /\
  -10 < 0 /\
  supply_of (Some "-0xa") <> None.
Proof. split; [reflexivity | split; [lia | discriminate]]. Qed.

Lemma responses_correlated_by_id_witness :
  let rs := [response 7 "0x5"; response 1 "0x2a"; response 1 "zz"; response 2 "0x0"] in
  exists m w',
    get_token_total_supplies (const_post (batch_reply rs)) TOKENS 4 w0 = (Ret m, w') /\
    m = decode_responses TOKENS [response 1 "0x2a"; response 1 "zz"; response 2 "0x0"] /\
    m !! "USDT" = Some None /\
    m !! "SFASTUSD" = Some (Some 0) /\
    supplies_get m "USDC" = None.
Proof.
  intros rs.
  destruct (responses_correlated_by_id (const_post (batch_reply rs)) TOKENS 4 w0 rs _
              TOKENS_names_distinct eq_refl) as (m & Hrun & Hskip & Hlast & Hmissing & _).
  exists m. eexists. split; [exact Hrun |].
  split; [| split; [| split]].
  - apply (Hskip [] (response 7 "0x5") _ eq_refl).
    intros req Hreq. vm_compute in Hreq.
    repeat (apply elem_of_cons in Hreq as [-> | Hreq]; [discriminate |]).
    apply elem_of_nil in Hreq. contradiction.
  - exact (Hlast 1%nat _ eq_refl).
  - exact (Hlast 2%nat _ eq_refl).
  - exact (proj2 (Hmissing 0%nat _ eq_refl eq_refl)).
Defined.

(** No response for the first query: its name is not bound to [None], it
    is missing, and the retrying reader returns the mapping at once, while
    an entry bound to [None] makes it retry. *)
Lemma responses_missing_counterexample :
  let rs := [response 1 "0x1"; response 2 "0x2"] in
  let unavailable := [response 0 "not-hex"; response 1 "0x1"; response 2 "0x2"] in
  responses_for 0 rs = [] /\
  (exists m w',
      get_token_total_supplies (const_post (batch_reply rs)) TOKENS 4 w0 = (Ret m, w') /\
      m !! "USDC" <> Some None /\
      m !! "USDC" = None /\
      get_token_total_supplies_with_retries (const_post (batch_reply rs)) TOKENS 4 3 1 w0
        = (Ret (Some m), w')) /\
  (exists m w',
      get_token_total_supplies (const_post (batch_reply unavailable)) TOKENS 4 w0
        = (Ret m, w') /\
      m !! "USDC" = Some None /\
      fst (get_token_total_supplies_with_retries (const_post (batch_reply unavailable))
             TOKENS 4 3 1 w0) = Ret None).
Proof.
  intros rs unavailable. split; [reflexivity |]. split.
  - eexists. eexists. split; [reflexivity |].
    split; [vm_compute; discriminate |]. split; [reflexivity |].
    vm_compute. reflexivity.
  - eexists. eexists. split; [reflexivity |]. split; [reflexivity |].
    vm_compute. reflexivity.
Qed.

Lemma reordered_responses_same_mapping_witness :
  let rs := [response 0 "0x1"; response 5 "0x9"; response 2 "0x3"; response 1 "0x2"] in
  fst (get_token_total_supplies (const_post (batch_reply rs)) TOKENS 4 w0)
  = fst (get_token_total_supplies (const_post (batch_reply (rev rs))) TOKENS 4 w0).
Proof.
  intros rs.
  refine (reordered_responses_same_mapping (const_post (batch_reply rs))
            (const_post (batch_reply (rev rs))) TOKENS 4 w0 w0 rs (rev rs) _ _
            eq_refl eq_refl _ _).
  - apply Permutation_rev.
  - apply (bool_decide_unpack _). vm_compute. exact I.
Defined.

(** Two responses with the same id: the later one wins, so their order
    shows in the mapping. *)
Lemma reordered_responses_counterexample :
  let rs := [response 0 "0x1"; response 0 "0x2"] in
  rs ≡ₚ rev rs /\
  fst (get_token_total_supplies (const_post (batch_reply rs)) TOKENS 4 w0)
  <> fst (get_token_total_supplies (const_post (batch_reply (rev rs))) TOKENS 4 w0).
Proof.
  intros rs. split; [apply Permutation_rev |].
  intros Heq.
  apply (f_equal (fun r => match r with Ret m => m !! "USDC" | _ => None end)) in Heq.
  vm_compute in Heq. discriminate.
Qed.

Lemma decoded_supplies_nonnegative_witness : 0 <= 1000.
Proof.
  refine (decoded_supplies_nonnegative (const_post (batch_reply [response 0 "0x3e8"]))
            TOKENS 4 w0 (decode_responses TOKENS [response 0 "0x3e8"]) _ "USDC" 1000
            eq_refl _ eq_refl).
  intros rs resp s Hrs Hin Hs.
  injection Hrs as <-.
  apply list_elem_of_singleton in Hin. subst resp.
  injection Hs as <-. reflexivity.
Defined.

(** A result with a minus sign gives a negative entry. *)
Lemma decoded_supplies_counterexample :
  exists m w',
    get_token_total_supplies (const_post (batch_reply [response 1 "-0x1"])) TOKENS 4 w0
      = (Ret m, w') /\
    m !! "USDT" = Some (Some (-1)) /\
    -1 < 0.
Proof. eexists. eexists. split; [reflexivity | split; [reflexivity | lia]]. Qed.



(** *** Resolution on a synthetic chain *)

Section ChainFacts.

Variable head : Z.
Variable timestamp : Z -> Z.
Variable target_date : Z.

Lemma chain_call_latest (w : world unit) :
  call_rpc (chain_post head timestamp) "eth_blockNumber" [] 3 1 w
  = (Ret (Some (BodyObject {| reply_result := Some (VStr (Py.hex head)) |})),
     World (net w) (trace w ++ [EvPost 0 (Single latest_request)])).
Proof. reflexivity. Qed.

Lemma chain_call_header mid (w : world unit) :
  call_rpc (chain_post head timestamp) "eth_getBlockByNumber"
    [PStr (Py.hex mid); PBool false] 3 1 w
  = (Ret (Some (BodyObject {| reply_result := Some (VBlock (Py.hex (timestamp mid))) |})),
     World (net w) (trace w ++ [EvPost 0 (Single (block_request mid))])).
Proof.
  unfold call_rpc. change (Z.to_nat 3) with 3%nat.
  cbn [post_loop]. unfold bind at 1, do_post.
  cbn [chain_post req_method req_params].
  change (String.eqb "eth_getBlockByNumber" "eth_blockNumber") with false. cbv iota.
  rewrite int16_hex. reflexivity.
Qed.

(** One iteration of the loop on the chain. *)
Lemma chain_search_step fuel low high chosen (w : world unit) :
  low <= high ->
  let mid := (low + high) / 2 in
  let w1 := World (net w) (trace w ++ [EvPost 0 (Single (block_request mid))]) in
  search (chain_post head timestamp) (S fuel) target_date low high chosen w =
  match Py.utc_date (timestamp mid) with
  | None => (Raise ValueError, w1)
  | Some block_date =>
      if block_date =? target_date then (Ret (Some (mid, timestamp mid)), w1)
      else if block_date <? target_date then
        search (chain_post head timestamp) fuel target_date (mid + 1) high
          (Some (mid, timestamp mid)) w1
      else search (chain_post head timestamp) fuel target_date low (mid - 1) chosen w1
  end.
Proof.
  intros Hle mid w1. rewrite search_unfold.
  replace (low <=? high) with true by (symmetry; apply Z.leb_le; exact Hle).
  cbv zeta. fold mid. unfold bind at 1. rewrite chain_call_header. fold w1.
  cbn [result_member reply_result].
  unfold bind at 1, timestamp_of, ret at 1.
  unfold bind at 1, int_str. rewrite int16_hex. unfold ret at 1.
  unfold bind at 1, date_of.
  destruct (Py.utc_date (timestamp mid)) as [block_date |]; [| reflexivity].
  unfold ret at 1.
  destruct (block_date =? target_date); [reflexivity |].
  destruct (block_date <? target_date); reflexivity.
Qed.

Lemma chain_resolve_start (w : world unit) :
  get_closest_block_timestamp (chain_post head timestamp) target_date w
  = search (chain_post head timestamp) (Z.to_nat (head + 1)) target_date 0 head None
      (World (net w) (trace w ++ [EvPost 0 (Single latest_request)])).
Proof.
  unfold get_closest_block_timestamp, bind at 1. rewrite chain_call_latest.
  cbn [result_member reply_result]. unfold bind at 1, int_value, int_str.
  rewrite int16_hex. reflexivity.
Qed.

Lemma chain_search_sound fuel : forall low high chosen (w : world unit) n t w',
  0 <= low -> high <= head ->
  (forall c tc, chosen = Some (c, tc) -> on_or_before head timestamp target_date c tc) ->
  search (chain_post head timestamp) fuel target_date low high chosen w
    = (Ret (Some (n, t)), w') ->
  on_or_before head timestamp target_date n t.
Proof.
  induction fuel as [|fuel IH]; intros low high chosen w n t w' Hlow Hhigh Hchosen Hrun.
  - cbn [search] in Hrun. destruct (low <=? high); [discriminate |].
    injection Hrun as Hc _. exact (Hchosen n t Hc).
  - destruct (Z.leb_spec low high) as [Hle | Hgt].
    2:{ rewrite search_unfold in Hrun.
        replace (low <=? high) with false in Hrun by (symmetry; apply Z.leb_gt; lia).
        injection Hrun as Hc _. exact (Hchosen n t Hc). }
    rewrite (chain_search_step fuel low high chosen w Hle) in Hrun. cbv zeta in Hrun.
    destruct (midpoint_bounds low high Hle) as (Hmid & _).
    set (mid := (low + high) / 2) in *.
    destruct (Py.utc_date (timestamp mid)) as [d |] eqn:Hd; [| discriminate].
    assert (Hcand : d <= target_date ->
      on_or_before head timestamp target_date mid (timestamp mid)).
    { intros Hdt. split; [lia |]. split; [reflexivity |]. exists d. split; assumption. }
    destruct (Z.eqb_spec d target_date) as [Heq | Hne].
    + injection Hrun as <- <- _. apply Hcand. lia.
    + destruct (Z.ltb_spec d target_date) as [Hlt | Hge].
      * eapply IH; [| | | exact Hrun]; [lia | lia |].
        intros c tc [= <- <-]. apply Hcand. lia.
      * eapply IH; [| | | exact Hrun]; [lia | lia | exact Hchosen].
Qed.

(** C10: on a synthetic chain, a block that
    [get_closest_block_timestamp] returns has a number between 0 and the
    head number, comes with its own timestamp, and its UTC date is on or
    before the target date.  This holds for every assignment of
    timestamps, the monotone ones among them. *)
Theorem resolve_result_on_or_before (w : world unit) n t w' :
  get_closest_block_timestamp (chain_post head timestamp) target_date w
    = (Ret (Some (n, t)), w') ->
  0 <= n <= head /\ t = timestamp n /\
  exists d, Py.utc_date (timestamp n) = Some d /\ d <= target_date.
Proof.
  rewrite chain_resolve_start. intros Hrun.
  eapply chain_search_sound; [| | | exact Hrun]; [lia | lia | discriminate].
Qed.

End ChainFacts.

(** *** Resolution on a monotone chain *)

Section MonotoneChain.

Variable head : Z.
Variable timestamp : Z -> Z.
Variable target_date : Z.

Hypothesis head_nonneg : 0 <= head.
Hypothesis monotone :
  forall a b, 0 <= a -> a <= b -> b <= head -> timestamp a <= timestamp b.
Hypothesis representable :
  forall b, 0 <= b <= head -> -62135596800 <= timestamp b <= 253402300799.

Lemma chain_date_monotone a b :
  0 <= a -> a <= b -> b <= head -> chain_date timestamp a <= chain_date timestamp b.
Proof.
  intros H0 Hab Hb. unfold chain_date.
  apply Z.div_le_mono; [lia | apply monotone; assumption].
Qed.

Lemma chain_utc_date b :
  0 <= b <= head -> Py.utc_date (timestamp b) = Some (chain_date timestamp b).
Proof.
  intros Hb. unfold Py.utc_date. pose proof (representable b Hb) as [Hlo Hhi].
  apply Z.leb_le in Hlo, Hhi. rewrite Hlo, Hhi. reflexivity.
Qed.

(** The loop invariant: the blocks below [low] are before the target date,
    the blocks above [high] are after it, and the candidate is the block
    just below [low]. *)
Lemma chain_search_complete fuel : forall low high chosen (w : world unit),
  0 <= low -> high <= head -> low <= high + 1 ->
  high - low + 1 <= Z.of_nat fuel ->
  (forall b, 0 <= b < low -> chain_date timestamp b < target_date) ->
  (forall b, high < b <= head -> target_date < chain_date timestamp b) ->
  chosen = (if low =? 0 then None else Some (low - 1, timestamp (low - 1))) ->
  exists r w',
    search (chain_post head timestamp) fuel target_date low high chosen w = (Ret r, w') /\
    resolved head timestamp target_date r.
Proof.
  assert (Hend : forall low high chosen (w : world unit),
    0 <= low -> high <= head -> low = high + 1 ->
    (forall b, 0 <= b < low -> chain_date timestamp b < target_date) ->
    (forall b, high < b <= head -> target_date < chain_date timestamp b) ->
    chosen = (if low =? 0 then None else Some (low - 1, timestamp (low - 1))) ->
    resolved head timestamp target_date chosen).
  { intros low high chosen w Hlow Hhigh Heq Hbelow Habove ->.
    destruct (Z.eqb_spec low 0) as [H0 | H0]; cbn [resolved].
    - intros b Hb. apply Habove. lia.
    - split; [lia |]. split; [reflexivity |]. right.
      split; [apply Hbelow; lia | intros b Hb; apply Habove; lia]. }
  induction fuel as [|fuel IH];
    intros low high chosen w Hlow Hhigh Hcross Hfuel Hbelow Habove Hchosen.
  - exists chosen, w. cbn [search].
    replace (low <=? high) with false by (symmetry; apply Z.leb_gt; lia).
    split; [reflexivity |]. apply (Hend low high chosen w); auto. lia.
  - destruct (Z.leb_spec low high) as [Hle | Hgt].
    2:{ exists chosen, w. rewrite search_unfold.
        replace (low <=? high) with false by (symmetry; apply Z.leb_gt; lia).
        split; [reflexivity |]. apply (Hend low high chosen w); auto. lia. }
    rewrite (chain_search_step head timestamp target_date fuel low high chosen w Hle).
    cbv zeta.
    destruct (midpoint_bounds low high Hle) as (Hmid & _).
    set (mid := (low + high) / 2) in *.
    rewrite chain_utc_date by lia.
    destruct (Z.eqb_spec (chain_date timestamp mid) target_date) as [Heq | Hne].
    + eexists. eexists. split; [reflexivity |]. cbn [resolved].
      split; [lia |]. split; [reflexivity |]. left. exact Heq.
    + destruct (Z.ltb_spec (chain_date timestamp mid) target_date) as [Hlt | Hge].
      * apply IH; try lia.
        -- intros b Hb. pose proof (chain_date_monotone b mid ltac:(lia) ltac:(lia) ltac:(lia)).
           lia.
        -- intros b Hb. apply Habove. lia.
        -- replace (mid + 1 =? 0) with false by (symmetry; apply Z.eqb_neq; lia).
           replace (mid + 1 - 1) with mid by lia. reflexivity.
      * apply IH; try lia.
        -- intros b Hb. apply Hbelow. lia.
        -- intros b Hb. destruct (Z.le_gt_cases b high) as [Hbh | Hbh]; [| apply Habove; lia].
           pose proof (chain_date_monotone mid b ltac:(lia) ltac:(lia) ltac:(lia)). lia.
        -- exact Hchosen.
Qed.

Lemma linear_scan_greatest count : forall n,
  0 <= n < Z.of_nat count ->
  chain_date timestamp n <= target_date ->
  (forall b, n < b < Z.of_nat count -> target_date < chain_date timestamp b) ->
  linear_scan (chain_date timestamp) target_date count = Some n.
Proof.
  induction count as [|count IH]; intros n Hn Hdate Hlater; [lia |].
  cbn [linear_scan].
  destruct (Z.eq_dec n (Z.of_nat count)) as [-> | Hne].
  - apply Z.leb_le in Hdate. rewrite Hdate. reflexivity.
  - replace (chain_date timestamp (Z.of_nat count) <=? target_date) with false
      by (symmetry; apply Z.leb_gt; apply Hlater; lia).
    apply IH; [lia | exact Hdate | intros b Hb; apply Hlater; lia].
Qed.

Lemma linear_scan_nothing count :
  (forall b, 0 <= b < Z.of_nat count -> target_date < chain_date timestamp b) ->
  linear_scan (chain_date timestamp) target_date count = None.
Proof.
  induction count as [|count IH]; intros Hall; [reflexivity |].
  cbn [linear_scan].
  replace (chain_date timestamp (Z.of_nat count) <=? target_date) with false
    by (symmetry; apply Z.leb_gt; apply Hall; lia).
  apply IH. intros b Hb. apply Hall. lia.
Qed.

(** C1, as amended: on a chain with monotone timestamps,
    [get_closest_block_timestamp] returns a block whose date is on or
    before the target date: a block of the target date when the chain has
    one (the first one the search meets, which need not be the greatest),
    and otherwise the block the linear scan finds, the greatest one before
    the target date; it returns [None] exactly when the linear scan finds
    no block. *)
Theorem resolve_on_monotone_chain (w : world unit) :
  exists r w',
    get_closest_block_timestamp (chain_post head timestamp) target_date w = (Ret r, w') /\
    match r with
    | Some (n, t) =>
        0 <= n <= head /\ t = timestamp n /\
        chain_date timestamp n <= target_date /\
        (chain_date timestamp n = target_date \/
         linear_scan (chain_date timestamp) target_date (Z.to_nat (head + 1)) = Some n) /\
        ((exists b, 0 <= b <= head /\ chain_date timestamp b = target_date) ->
         chain_date timestamp n = target_date)
    | None =>
        linear_scan (chain_date timestamp) target_date (Z.to_nat (head + 1)) = None
    end.
Proof.
  rewrite chain_resolve_start.
  destruct (chain_search_complete (Z.to_nat (head + 1)) 0 head None
              (World (net w) (trace w ++ [EvPost 0 (Single latest_request)])))
    as (r & w' & Hrun & Hres); try lia; try reflexivity.
  exists r, w'. split; [exact Hrun |].
  destruct r as [[n t] |]; cbn [resolved] in Hres.
  - destruct Hres as (Hn & Ht & Hcase).
    split; [exact Hn |]. split; [exact Ht |].
    split; [destruct Hcase as [-> | [Hlt _]]; lia |].
    split.
    + destruct Hcase as [Heq | [Hlt Hlater]]; [left; exact Heq | right].
      apply linear_scan_greatest; [lia | lia |].
      intros b Hb. apply Hlater. lia.
    + intros (b & Hb & Hbdate).
      destruct Hcase as [Heq | [Hlt Hlater]]; [exact Heq | exfalso].
      destruct (Z.le_gt_cases b n) as [Hbn | Hbn].
      * pose proof (chain_date_monotone b n ltac:(lia) Hbn ltac:(lia)). lia.
      * pose proof (Hlater b ltac:(lia)). lia.
  - apply linear_scan_nothing. intros b Hb. apply Hres. lia.
Qed.

End MonotoneChain.

(** The scenario of the specification: head 100, block [n] stamped with
    the midnight of 2024-01-01 plus [n] days; 2024-01-05 is block 4. *)
Lemma resolve_on_monotone_chain_witness :
  let timestamp := fun n => (19723 + n) * 86400 in
  exists w',
    get_closest_block_timestamp (chain_post 100 timestamp) 19727 w0
      = (Ret (Some (4, timestamp 4)), w') /\
    linear_scan (chain_date timestamp) 19727 101 = Some 4.
Proof.
  intros timestamp.
  destruct (resolve_on_monotone_chain 100 timestamp 19727 ltac:(lia)
              ltac:(intros a b; unfold timestamp; lia)
              ltac:(intros b; unfold timestamp; lia) w0) as (r & w' & Hrun & Hres).
  exists w'. split; [| reflexivity].
  rewrite Hrun. vm_compute in Hrun. injection Hrun as <- _. reflexivity.
Defined.

(** Three blocks of the target date: the search returns the one in the
    middle, the linear scan the last one. *)
Lemma resolve_greatest_counterexample :
  let timestamp := fun n : Z => n in
  (forall a b, 0 <= a -> a <= b -> b <= 2 -> timestamp a <= timestamp b) /\
  fst (get_closest_block_timestamp (chain_post 2 timestamp) 0 w0) = Ret (Some (1, 1)) /\
  linear_scan (chain_date timestamp) 0 3 = Some 2 /\
  chain_date timestamp 2 <= 0.
Proof.
  intros timestamp. split; [unfold timestamp; lia |].
  split; [reflexivity |]. split; [reflexivity |]. vm_compute. discriminate.
Qed.

Lemma resolve_result_on_or_before_witness :
  0 <= 4 <= 100 /\ 1704412800 = (19723 + 4) * 86400 /\
  exists d, Py.utc_date ((19723 + 4) * 86400) = Some d /\ d <= 19727.
Proof.
  exact (resolve_result_on_or_before 100 (fun n => (19723 + n) * 86400) 19727 w0
           4 1704412800 _ eq_refl).
Defined.

(** The reading scenario of the specification: one query [X], one response
    with the result ["0x3e8"]. *)
Example read_all_scenario :
  let X := {| name := "X"; contract := "0xabc"; decimals := 0 |} in
  fst (get_token_total_supplies (const_post (batch_reply [response 0 "0x3e8"])) [X] 4 w0)
  = Ret {[ "X" := Some 1000 ]}.
Proof. vm_compute. reflexivity. Qed.

(** Without any answer every name is bound to [None], and the reader with
    retries gives up after its three attempts, each followed by a sleep. *)
Example read_all_dead_endpoint :
  fst (get_token_total_supplies (const_post HttpError) TOKENS 4 w0)
    = Ret {[ "USDC" := None; "USDT" := None; "SFASTUSD" := None ]} /\
  fst (get_token_total_supplies_with_retries (const_post HttpError) TOKENS 4 3 1 w0)
    = Ret None /\
  posts (trace (snd (get_token_total_supplies_with_retries (const_post HttpError)
                       TOKENS 4 3 1 w0))) = 9.
Proof. vm_compute. repeat split; reflexivity. Qed.

(** *** The first answer wins *)

Section FirstSuccess.

Context {Net : Type}.
Variable post : Net -> payload -> http * Net.



End FirstSuccess.


(** *** The batch that is submitted *)

Section BatchFacts.

Variable tokens : list token.

Lemma enumerate_from_lookup (l : list token) : forall k (i : nat),
  enumerate_from k l !! i = (fun t => (k + Z.of_nat i, t)) <$> l !! i.
Proof.
  induction l as [|x l IH]; intros k i; [reflexivity |].
  destruct i as [|i]; cbn [enumerate_from].
  - cbn [lookup list_lookup fmap option_fmap option_map]. do 2 f_equal. lia.
  - change ((x :: l) !! S i) with (l !! i).
    change (((k, x) :: enumerate_from (k + 1) l) !! S i)
      with (enumerate_from (k + 1) l !! i).
    rewrite IH. destruct (l !! i); [| reflexivity].
    cbn. do 2 f_equal. lia.
Qed.

Lemma enumerate_from_ids (l : list token) : forall k,
  (fst <$> enumerate_from k l) = (fun i : nat => k + Z.of_nat i) <$> seq 0 (length l).
Proof.
  induction l as [|x l IH]; intros k; [reflexivity |].
  cbn [enumerate_from length seq fmap list_fmap fst]. f_equal; [lia |].
  rewrite IH, <- seq_shift, <- list_fmap_compose.
  apply list_fmap_ext. intros _ i _. cbn. lia.
Qed.

(** X2: the batch has one request per token, in the order of the table;
    the request at position [i] carries the id [i], the method [eth_call],
    the contract of token [i], the [totalSupply()] selector and the block
    number in a form that [int(_, 16)] reads back; no id occurs twice, and
    [id_to_token] takes the id of each request back to its token and knows
    no other id. *)
Theorem batch_ids_are_positions block_number :
  length (batch_payload tokens block_number) = length tokens /\
  NoDup (req_id <$> batch_payload tokens block_number) /\
  (forall (i : nat) t,
      tokens !! i = Some t ->
      exists block_hex,
        batch_payload tokens block_number !! i
        = Some {| req_id := Z.of_nat i; req_method := "eth_call";
                  req_params := [PCall (contract t) "0x18160ddd"; PStr block_hex] |} /\
        Py.int16 block_hex = Some block_number /\
        id_to_token tokens !! Z.of_nat i = Some t) /\
  (forall z t,
      id_to_token tokens !! z = Some t ->
      exists req, req ∈ batch_payload tokens block_number /\ req_id req = z).
Proof.
  unfold batch_payload, enumerate.
  split; [| split; [| split]].
  - rewrite length_fmap.
    rewrite <- (length_fmap fst), enumerate_from_ids, length_fmap. apply length_seq.
  - rewrite <- list_fmap_compose.
    replace (req_id ∘ supply_request block_number) with (@fst Z token) by reflexivity.
    rewrite enumerate_from_ids. apply NoDup_fmap_2; [| apply NoDup_seq].
    intros a b Hab. lia.
  - intros i t Ht. exists (Py.hex block_number).
    rewrite list_lookup_fmap, enumerate_from_lookup, Ht. cbn.
    split; [reflexivity |]. split; [apply int16_hex |].
    rewrite id_to_token_position. exact Ht.
  - intros z t Hz. rewrite id_to_token_lookup in Hz.
    destruct (Z.leb_spec 0 z) as [H0 | H0]; [| discriminate].
    exists (supply_request block_number (z, t)). split; [| reflexivity].
    apply list_elem_of_fmap. exists (z, t). split; [reflexivity |].
    pose proof (enumerate_from_elem tokens 0 (Z.to_nat z) t Hz) as Hin.
    replace (0 + Z.of_nat (Z.to_nat z)) with z in Hin by lia. exact Hin.
Qed.

End BatchFacts.

Lemma batch_ids_are_positions_witness :
  exists block_hex,
    batch_payload TOKENS 1000 !! 2%nat
    = Some {| req_id := 2; req_method := "eth_call";
              req_params := [PCall "0x37a4dd9ced2b19cfe8fac251cd727b5787e45269" "0x18160ddd";
                             PStr block_hex] |} /\
    Py.int16 block_hex = Some 1000.
Proof.
  destruct (proj1 (proj2 (proj2 (batch_ids_are_positions TOKENS 1000))) 2%nat _ eq_refl)
    as (block_hex & Hreq & Hhex & _).
  exists block_hex. split; [exact Hreq | exact Hhex].
Defined.

(** *** What the reader binds *)

Section ReaderBindings.

Context {Net : Type}.
Variable post : Net -> payload -> http * Net.
Variable tokens : list token.

Lemma mark_unavailable_lookup (l : list token) : forall (m0 : gmap string (option Z)) k,
  foldl (fun m token => <[name token := None]> m) m0 l !! k
  = if decide (k ∈ name <$> l) then Some None else m0 !! k.
Proof.
  induction l as [|x l IH]; intros m0 k; cbn [foldl].
  - rewrite decide_False; [reflexivity |]. cbn. apply not_elem_of_nil.
  - rewrite IH. rewrite fmap_cons.
    destruct (decide (k ∈ name <$> l)) as [Hin | Hnotin].
    + rewrite decide_True; [reflexivity |]. right. exact Hin.
    + destruct (decide (k = name x)) as [-> | Hne].
      * rewrite lookup_insert_eq, decide_True; [reflexivity |]. left.
      * rewrite lookup_insert_ne by congruence.
        rewrite decide_False; [reflexivity |].
        intros Hin. apply elem_of_cons in Hin as [Heq | Hin]; contradiction.
Qed.

Lemma all_unavailable_lookup k :
  all_unavailable tokens !! k = if decide (k ∈ name <$> tokens) then Some None else None.
Proof. unfold all_unavailable. rewrite mark_unavailable_lookup, lookup_empty. reflexivity. Qed.

Lemma all_unavailable_incomplete : complete (all_unavailable tokens) = false.
Proof.
  unfold complete. apply andb_false_iff.
  destruct tokens as [|t l] eqn:Htokens.
  - left. apply bool_decide_eq_false. intros H. apply H. reflexivity.
  - right. apply bool_decide_eq_false. intros Hall.
    assert (Hk : all_unavailable (t :: l) !! name t = Some None).
    { rewrite <- Htokens, all_unavailable_lookup, Htokens.
      rewrite decide_True; [reflexivity |]. rewrite fmap_cons. left. }
    destruct (Hall _ _ Hk) as [v Hv]. discriminate.
Qed.

(** X3: when the three posts of the batch all fail,
    [get_token_total_supplies] returns, after these three posts, the
    mapping that binds the name of every token to [None] and binds nothing
    else; that mapping never passes the completeness test of the retry
    loop. *)
Theorem exhausted_batch_marks_all_unavailable block_number (w : world Net) :
  all_fail post (Batch (batch_payload tokens block_number)) 3 (net w) = true ->
  exists m w',
    get_token_total_supplies post tokens block_number w = (Ret m, w') /\
    trace w' = trace w ++ attempt_trace (Batch (batch_payload tokens block_number)) 1 0 3 /\
    (forall k, m !! k = if decide (k ∈ name <$> tokens) then Some None else None) /\
    complete m = false.
Proof.
  intros Hfail.
  destruct (post_loop_spec post (Batch (batch_payload tokens block_number)) 3 1 3%nat
              ltac:(lia) 0 w eq_refl) as (b & w' & k & Hrun & _ & _ & Htr & Hnone & Hall).
  apply Hnone in Hfail. subst b. rewrite (Hall eq_refl) in Htr.
  exists (all_unavailable tokens), w'.
  split; [exact (get_token_total_supplies_run tokens post block_number w None w' Hrun) |].
  split; [exact Htr |].
  split; [apply all_unavailable_lookup | apply all_unavailable_incomplete].
Qed.

(** X4: whatever the endpoint answers, a mapping that
    [get_token_total_supplies] returns binds only names of tokens of the
    table. *)
Theorem supplies_bind_only_token_names block_number (w : world Net) m w' k :
  get_token_total_supplies post tokens block_number w = (Ret m, w') ->
  is_Some (m !! k) ->
  k ∈ name <$> tokens.
Proof.
  intros Hrun [x Hk].
  destruct (call_rpc_batch post (batch_payload tokens block_number) 3 1 w)
    as [[b | e |] w1] eqn:Hcall.
  - rewrite (get_token_total_supplies_run tokens post block_number w b w1 Hcall) in Hrun.
    destruct b as [[r | rs] |]; [discriminate | |]; injection Hrun as <- <-.
    + destruct (decide (k ∈ name <$> tokens)) as [Hin | Hnotin]; [exact Hin |].
      rewrite (decode_responses_foreign tokens rs k Hnotin) in Hk. discriminate.
    + rewrite all_unavailable_lookup in Hk.
      destruct (decide (k ∈ name <$> tokens)) as [Hin | Hnotin]; [exact Hin | discriminate].
  - unfold get_token_total_supplies, bind in Hrun. rewrite Hcall in Hrun. discriminate.
  - unfold get_token_total_supplies, bind in Hrun. rewrite Hcall in Hrun. discriminate.
Qed.

(** X5: when the batch call delivers, for every token of a non-empty table
    with distinct names, a last response of its id whose result decodes,
    the mapping binds every name to an integer, and
    [get_token_total_supplies_with_retries] returns it from its first
    attempt, in the state the batch call left: it neither sleeps nor
    retries. *)
Theorem full_reply_is_returned_at_once block_number max_retries delay
    (w : world Net) rs w' :
  NoDup (name <$> tokens) ->
  tokens <> [] ->
  0 < max_retries ->
  call_rpc_batch post (batch_payload tokens block_number) 3 1 w
    = (Ret (Some (BodyArray rs)), w') ->
  (forall (i : nat) t,
      tokens !! i = Some t ->
      exists resp v,
        last (responses_for (Z.of_nat i) rs) = Some resp /\
        supply_of (resp_result resp) = Some v) ->
  exists m,
    get_token_total_supplies_with_retries post tokens block_number max_retries delay w
      = (Ret (Some m), w') /\
    (forall (i : nat) t,
        tokens !! i = Some t ->
        exists resp v,
          last (responses_for (Z.of_nat i) rs) = Some resp /\
          supply_of (resp_result resp) = Some v /\
          m !! name t = Some (Some v)) /\
    (forall k, k ∉ name <$> tokens -> m !! k = None).
Proof.
  intros Hnd Hne Hpos Hcall Hfull. exists (decode_responses tokens rs).
  pose proof (get_token_total_supplies_run tokens post block_number w _ w' Hcall) as Hrun.
  assert (Hbound : forall (i : nat) t,
    tokens !! i = Some t ->
    exists resp v,
      last (responses_for (Z.of_nat i) rs) = Some resp /\
      supply_of (resp_result resp) = Some v /\
      decode_responses tokens rs !! name t = Some (Some v)).
  { intros i t Ht. destruct (Hfull i t Ht) as (resp & v & Hlast & Hv).
    exists resp, v. split; [exact Hlast |]. split; [exact Hv |].
    rewrite (decode_responses_lookup tokens i t rs Hnd Ht), Hlast. cbn. rewrite Hv.
    reflexivity. }
  assert (Hc : complete (decode_responses tokens rs) = true).
  { unfold complete. apply andb_true_iff. split; apply bool_decide_eq_true.
    - destruct tokens as [|t l] eqn:Htokens; [contradiction |].
      destruct (Hbound O t eq_refl) as (_ & v & _ & _ & Hk).
      intros Hempty. rewrite Hempty, lookup_empty in Hk. discriminate.
    - intros k x Hk.
      destruct (decide (k ∈ name <$> tokens)) as [Hin | Hnotin].
      + apply list_elem_of_fmap in Hin as (t & -> & Hin).
        apply list_elem_of_lookup in Hin as (i & Ht).
        destruct (Hbound i t Ht) as (_ & v & _ & _ & Hv).
        rewrite Hv in Hk. injection Hk as <-. eauto.
      + rewrite (decode_responses_foreign tokens rs k Hnotin) in Hk. discriminate. }
  split; [| split; [exact Hbound | intros k Hk; apply decode_responses_foreign; exact Hk]].
  unfold get_token_total_supplies_with_retries.
  destruct (Z.to_nat max_retries) as [|todo] eqn:Htodo; [lia |].
  cbn [retry_loop]. unfold bind at 1. rewrite Hrun, Hc. reflexivity.
Qed.

End ReaderBindings.

Lemma exhausted_batch_witness :
  exists m w',
    get_token_total_supplies (const_post HttpError) TOKENS 4 w0 = (Ret m, w') /\
    m !! "USDT" = Some None /\ m !! "DAI" = None /\ complete m = false.
Proof.
  destruct (exhausted_batch_marks_all_unavailable (const_post HttpError) TOKENS 4 w0 eq_refl)
    as (m & w' & Hrun & _ & Hk & Hc).
  exists m, w'. split; [exact Hrun |].
  split; [exact (Hk "USDT") |]. split; [exact (Hk "DAI") | exact Hc].
Defined.

Lemma supplies_bind_only_token_names_witness : "USDT" ∈ name <$> TOKENS.
Proof.
  refine (supplies_bind_only_token_names
            (const_post (batch_reply [response 1 "0x2a"; response 9 "0x1"])) TOKENS 4 w0
            (decode_responses TOKENS [response 1 "0x2a"; response 9 "0x1"]) _ "USDT"
            eq_refl _).
  exists (Some 42). reflexivity.
Defined.

Lemma full_reply_witness :
  let rs := [response 2 "0x3"; response 0 "0x1"; response 1 "zz"; response 1 "0x2"] in
  exists m w',
    get_token_total_supplies_with_retries (const_post (batch_reply rs)) TOKENS 4 3 1 w0
      = (Ret (Some m), w') /\
    trace w' = [EvPost 0 (Batch (batch_payload TOKENS 4))] /\
    m !! "DAI" = None.
Proof.
  intros rs.
  destruct (full_reply_is_returned_at_once (const_post (batch_reply rs)) TOKENS 4 3 1 w0 rs _
              TOKENS_names_distinct ltac:(discriminate) ltac:(lia) eq_refl) as (m & Hrun & _ & Hk).
  - intros i t Ht.
    destruct i as [|[|[|i]]]; [| | | discriminate];
      injection Ht as <-; eexists; eexists; split; reflexivity.
  - exists m. eexists. split; [exact Hrun |]. split; [reflexivity |].
    apply Hk. vm_compute. intros Hin.
    repeat (apply elem_of_cons in Hin as [Heq | Hin]; [discriminate |]).
    apply elem_of_nil in Hin. exact Hin.
Defined.

(** *** The attempts of the retrying reader *)

Section RetryBudget.

Context {Net : Type}.
Variable post : Net -> payload -> http * Net.
Variable tokens : list token.

Lemma batch_calls_app (a b : list event) : batch_calls (a ++ b) = batch_calls a + batch_calls b.
Proof. unfold batch_calls. rewrite filter_app, length_app. lia. Qed.

Lemma batch_calls_later batch delay k : forall attempt,
  0 < attempt -> batch_calls (attempt_trace (Batch batch) delay attempt k) = 0.
Proof.
  assert (Hpost : forall attempt, 0 < attempt -> starts_batch (EvPost attempt (Batch batch)) = false).
  { intros attempt Ha. cbn. apply Z.eqb_neq. lia. }
  induction k as [|k IH]; intros attempt Ha; [reflexivity |].
  destruct k as [|k].
  - unfold batch_calls. cbn [attempt_trace]. rewrite filter_cons, Hpost by assumption.
    reflexivity.
  - change (attempt_trace (Batch batch) delay attempt (S (S k)))
      with ([EvPost attempt (Batch batch); EvSleep delay]
            ++ attempt_trace (Batch batch) delay (attempt + 1) (S k)).
    rewrite batch_calls_app, IH by lia.
    unfold batch_calls. rewrite filter_cons, Hpost by assumption. reflexivity.
Qed.

Lemma batch_calls_attempts batch delay k :
  (1 <= k)%nat -> batch_calls (attempt_trace (Batch batch) delay 0 k) = 1.
Proof.
  intros Hk. destruct k as [|k]; [lia |]. destruct k as [|k]; [reflexivity |].
  change (attempt_trace (Batch batch) delay 0 (S (S k)))
    with ([EvPost 0 (Batch batch); EvSleep delay]
          ++ attempt_trace (Batch batch) delay (0 + 1) (S k)).
  rewrite batch_calls_app, batch_calls_later by lia. reflexivity.
Qed.

(** One read is one batch call of one to three posts, and it returns. *)
Lemma get_token_total_supplies_trace block_number (w : world Net) :
  exists r w' d,
    get_token_total_supplies post tokens block_number w = (r, w') /\
    r <> OutOfFuel /\
    trace w' = trace w ++ d /\
    batch_calls d = 1 /\
    1 <= posts d <= 3.
Proof.
  destruct (post_loop_spec post (Batch (batch_payload tokens block_number)) 3 1 3%nat
              ltac:(lia) 0 w eq_refl) as (b & w' & k & Hrun & Hk & Hk0 & Htr & _).
  assert (1 <= k)%nat by (assert (k <> O) by (apply Hk0; discriminate); lia).
  rewrite (get_token_total_supplies_run tokens post block_number w b w' Hrun).
  eexists. exists w', (attempt_trace (Batch (batch_payload tokens block_number)) 1 0 k).
  split; [reflexivity |].
  split; [destruct b as [[r | rs] |]; discriminate |].
  split; [exact Htr |].
  rewrite batch_calls_attempts, posts_attempt_trace by assumption. lia.
Qed.

Lemma retry_loop_budget block_number delay todo : forall (w : world Net),
  exists r w' d,
    retry_loop post tokens block_number delay todo w = (r, w') /\
    r <> OutOfFuel /\
    trace w' = trace w ++ d /\
    batch_calls d <= Z.of_nat todo /\
    posts d <= 3 * Z.of_nat todo /\
    (r = Ret None ->
     batch_calls d = Z.of_nat todo /\
     ((todo = O /\ d = []) \/ exists d', d = d' ++ [EvSleep delay])).
Proof.
  induction todo as [|todo IH]; intros w.
  - exists (Ret None), w, []. cbn [retry_loop]. rewrite app_nil_r.
    split; [reflexivity |]. split; [discriminate |]. split; [reflexivity |].
    split; [reflexivity |]. split; [reflexivity |]. intros _. split; [reflexivity | left; auto].
  - cbn [retry_loop]. unfold bind at 1.
    destruct (get_token_total_supplies_trace block_number w)
      as (r1 & w1 & d1 & Hrun & Hr1 & Htr1 & Hb1 & Hp1).
    rewrite Hrun.
    assert (Hstop : forall r : result (option (gmap string (option Z))),
      r <> OutOfFuel -> r <> Ret None ->
      exists r' w' d, (r, w1) = (r', w') /\ r' <> OutOfFuel /\ trace w' = trace w ++ d /\
        batch_calls d <= Z.of_nat (S todo) /\ posts d <= 3 * Z.of_nat (S todo) /\
        (r' = Ret None -> batch_calls d = Z.of_nat (S todo) /\
           ((S todo = O /\ d = []) \/ exists d', d = d' ++ [EvSleep delay]))).
    { intros r Hr Hnone. exists r, w1, d1.
      split; [reflexivity |]. split; [exact Hr |]. split; [exact Htr1 |].
      split; [lia |]. split; [lia |]. intros Heq. contradiction. }
    destruct r1 as [m | e |]; [| apply Hstop; discriminate | contradiction].
    destruct (complete m); [apply Hstop; discriminate |].
    unfold bind at 1, sleep.
    destruct (delay <? 0); [apply Hstop; discriminate |].
    unfold emit. cbn [net trace].
    destruct (IH (World (net w1) (trace w1 ++ [EvSleep delay])))
      as (r & w' & d & Hloop & Hr & Htr & Hb & Hp & Hnone).
    exists r, w', (d1 ++ [EvSleep delay] ++ d).
    split; [exact Hloop |]. split; [exact Hr |].
    split; [rewrite Htr; cbn [trace]; rewrite Htr1, <- !app_assoc; reflexivity |].
    rewrite !batch_calls_app, !posts_app, Hb1.
    change (batch_calls [EvSleep delay]) with 0. change (posts [EvSleep delay]) with 0.
    split; [lia |]. split; [lia |].
    intros Heq. destruct (Hnone Heq) as [Hcount Hlast]. split; [lia |]. right.
    destruct Hlast as [[_ ->] | [d' ->]].
    + exists d1. rewrite app_nil_r. reflexivity.
    + exists (d1 ++ [EvSleep delay] ++ d'). rewrite <- !app_assoc. reflexivity.
Qed.

(** X6: [get_token_total_supplies_with_retries] always returns (a value or
    the exception of a read), after at most [max_retries] batch calls and
    three times as many posts.  When it returns [None] it has made all its
    batch calls, and for a positive [max_retries] its last action is a sleep
    of [delay]: the wait also follows the last failed attempt.  With
    [max_retries] at most 0 it returns [None] at once, without any call. *)
Theorem retrying_reader_budget block_number max_retries delay (w : world Net) :
  exists r w' d,
    get_token_total_supplies_with_retries post tokens block_number max_retries delay w
      = (r, w') /\
    r <> OutOfFuel /\
    trace w' = trace w ++ d /\
    batch_calls d <= Z.max 0 max_retries /\
    posts d <= 3 * Z.max 0 max_retries /\
    (r = Ret None ->
     batch_calls d = Z.max 0 max_retries /\
     (0 < max_retries -> exists d', d = d' ++ [EvSleep delay])) /\
    (max_retries <= 0 -> r = Ret None /\ w' = w).
Proof.
  unfold get_token_total_supplies_with_retries.
  destruct (retry_loop_budget block_number delay (Z.to_nat max_retries) w)
    as (r & w' & d & Hrun & Hr & Htr & Hb & Hp & Hnone).
  exists r, w', d. split; [exact Hrun |]. split; [exact Hr |]. split; [exact Htr |].
  split; [lia |]. split; [lia |]. split.
  - intros Heq. destruct (Hnone Heq) as [Hcount Hlast]. split; [lia |].
    intros Hpos. destruct Hlast as [[Hzero _] | Hsleep]; [lia | exact Hsleep].
  - intros Hle. replace (Z.to_nat max_retries) with O in Hrun by lia.
    cbn [retry_loop] in Hrun. injection Hrun as <- <-. split; reflexivity.
Qed.

End RetryBudget.

(** *** Resolution as the caller sees it *)

Section ChainDates.

Variable head : Z.
Variable timestamp : Z -> Z.

Hypothesis head_nonneg : 0 <= head.
Hypothesis monotone :
  forall a b, 0 <= a -> a <= b -> b <= head -> timestamp a <= timestamp b.
Hypothesis representable :
  forall b, 0 <= b <= head -> -62135596800 <= timestamp b <= 253402300799.

Lemma chain_resolved target_date (w : world unit) :
  exists r w',
    get_closest_block_timestamp (chain_post head timestamp) target_date w = (Ret r, w') /\
    resolved head timestamp target_date r.
Proof.
  rewrite chain_resolve_start.
  apply (chain_search_complete head timestamp target_date monotone representable);
    try lia; reflexivity.
Qed.

(** X7: on a chain with monotone timestamps,
    [get_closest_block_timestamp] finds no block exactly when the target
    date is before the date of block 0; from the date of block 0 on it
    always returns a block. *)
Theorem resolve_none_before_genesis target_date (w : world unit) :
  exists r w',
    get_closest_block_timestamp (chain_post head timestamp) target_date w = (Ret r, w') /\
    (r = None <-> target_date < chain_date timestamp 0).
Proof.
  destruct (chain_resolved target_date w) as (r & w' & Hrun & Hres).
  exists r, w'. split; [exact Hrun |].
  destruct r as [[n t] |]; cbn [resolved] in Hres.
  - split; [discriminate |]. intros Hlt. exfalso.
    destruct Hres as (Hn & _ & Hcase).
    pose proof (chain_date_monotone head timestamp monotone 0 n ltac:(lia) ltac:(lia)
                  ltac:(lia)) as Hmono.
    destruct Hcase as [Heq | [Hbefore _]]; lia.
  - split; [intros _; apply Hres; lia | reflexivity].
Qed.

(** X8: on a chain with monotone timestamps, a later target date never
    resolves to an earlier block: when the earlier date resolves to a
    block, so does the later date, and to a block that is not before it. *)
Theorem resolve_monotone_in_date d1 d2 (w1 w2 : world unit) :
  d1 < d2 ->
  exists r1 w1' r2 w2',
    get_closest_block_timestamp (chain_post head timestamp) d1 w1 = (Ret r1, w1') /\
    get_closest_block_timestamp (chain_post head timestamp) d2 w2 = (Ret r2, w2') /\
    forall n1 t1, r1 = Some (n1, t1) -> exists n2 t2, r2 = Some (n2, t2) /\ n1 <= n2.
Proof.
  intros Hlt.
  destruct (chain_resolved d1 w1) as (r1 & w1' & Hrun1 & Hres1).
  destruct (chain_resolved d2 w2) as (r2 & w2' & Hrun2 & Hres2).
  exists r1, w1', r2, w2'. split; [exact Hrun1 |]. split; [exact Hrun2 |].
  intros n1 t1 ->. cbn [resolved] in Hres1. destruct Hres1 as (Hn1 & _ & Hcase1).
  assert (Hdate1 : chain_date timestamp n1 <= d1) by (destruct Hcase1 as [-> | [H _]]; lia).
  destruct r2 as [[n2 t2] |]; cbn [resolved] in Hres2.
  - exists n2, t2. split; [reflexivity |].
    destruct Hres2 as (Hn2 & _ & Hcase2).
    destruct (Z.le_gt_cases n1 n2) as [Hle | Hgt]; [exact Hle | exfalso].
    destruct Hcase2 as [Heq | [_ Hlater]].
    + pose proof (chain_date_monotone head timestamp monotone n2 n1 ltac:(lia) ltac:(lia)
                    ltac:(lia)). lia.
    + pose proof (Hlater n1 ltac:(lia)). lia.
  - exfalso. pose proof (Hres2 n1 Hn1). lia.
Qed.

End ChainDates.

Lemma resolve_none_before_genesis_witness :
  let timestamp := fun n => (19723 + n) * 86400 in
  fst (get_closest_block_timestamp (chain_post 100 timestamp) 19722 w0) = Ret None /\
  fst (get_closest_block_timestamp (chain_post 100 timestamp) 19723 w0)
    = Ret (Some (0, timestamp 0)).
Proof.
  intros timestamp.
  destruct (resolve_none_before_genesis 100 timestamp ltac:(lia)
              ltac:(intros a b; unfold timestamp; lia)
              ltac:(intros b; unfold timestamp; lia) 19722 w0) as (r & w' & Hrun & Hnone).
  split; [| reflexivity].
  rewrite Hrun. cbn [fst]. f_equal. apply Hnone. vm_compute. reflexivity.
Defined.

Lemma resolve_monotone_in_date_witness :
  let timestamp := fun n => (19723 + 2 * n) * 86400 in
  exists r1 r2,
    fst (get_closest_block_timestamp (chain_post 100 timestamp) 19730 w0) = Ret r1 /\
    fst (get_closest_block_timestamp (chain_post 100 timestamp) 19731 w0) = Ret r2 /\
    forall n1 t1, r1 = Some (n1, t1) -> exists n2 t2, r2 = Some (n2, t2) /\ n1 <= n2.
Proof.
  intros timestamp.
  destruct (resolve_monotone_in_date 100 timestamp ltac:(lia)
              ltac:(intros a b; unfold timestamp; lia)
              ltac:(intros b; unfold timestamp; lia) 19730 19731 w0 w0 ltac:(lia))
    as (r1 & w1' & r2 & w2' & Hrun1 & Hrun2 & Horder).
  exists r1, r2. rewrite Hrun1, Hrun2. split; [reflexivity |]. split; [reflexivity |].
  exact Horder.
Defined.

(** *** The rows of a date range *)

Section CallerFacts.

Context {Net F : Type}.
Variable post : Net -> payload -> http * Net.
Variable tokens : list token.
Variable scale : Z -> Z -> option F.

Lemma resolve_returns target_date (w : world Net) :
  fst (get_closest_block_timestamp post target_date w) <> OutOfFuel.
Proof.
  unfold get_closest_block_timestamp, bind at 1.
  destruct (call_rpc_spec post "eth_blockNumber" [] w) as (b & w1 & k & Hcall & _).
  rewrite Hcall.
  destruct (result_member b) as [v |]; [| discriminate].
  unfold bind at 1, int_value.
  destruct v as [| s | t]; try discriminate.
  unfold int_str. destruct (Py.int16 s) as [head |]; [| discriminate].
  unfold ret at 1.
  destruct (search_calls post target_date (Z.to_nat (head + 1)) 0 head None w1 ltac:(lia))
    as (r & w' & d & Hrun & Hr & _).
  rewrite Hrun. exact Hr.
Qed.

Lemma retrying_reader_returns block_number (w : world Net) :
  fst (get_token_total_supplies_with_retries post tokens block_number 3 1 w) <> OutOfFuel.
Proof.
  unfold get_token_total_supplies_with_retries.
  destruct (retry_loop_budget post tokens block_number 1 (Z.to_nat 3) w)
    as (r & w' & d & Hrun & Hr & _).
  rewrite Hrun. exact Hr.
Qed.

Lemma date_loop_unfold fuel current_date end_date data_rows (w : world Net) :
  date_loop post tokens scale (S fuel) current_date end_date data_rows w =
  if current_date <=? end_date then
    let continue rows w' :=
      match next_day current_date with
      | Some d => date_loop post tokens scale fuel d end_date rows w'
      | None => (ArithmeticError, w')
      end in
    match get_closest_block_timestamp post current_date w with
    | (Ret None, w1) => continue data_rows w1
    | (Ret (Some (block_number, _)), w1) =>
        match get_token_total_supplies_with_retries post tokens block_number 3 1 w1 with
        | (Ret None, w2) => continue data_rows w2
        | (Ret (Some token_supplies), w2) =>
            match make_row tokens scale current_date block_number token_supplies with
            | Some row => continue (data_rows ++ [row]) w2
            | None => (ArithmeticError, w2)
            end
        | (Raise e, w2) => (Uncaught e, w2)
        | (OutOfFuel, w2) => (Exhausted, w2)
        end
    | (Raise e, w1) => (Uncaught e, w1)
    | (OutOfFuel, w1) => (Exhausted, w1)
    end
  else (Done data_rows, w).
Proof. reflexivity. Qed.

Lemma date_loop_rows end_date fuel : forall current_date data_rows (w : world Net),
  end_date - current_date + 1 <= Z.of_nat fuel ->
  exists o w',
    date_loop post tokens scale fuel current_date end_date data_rows w = (o, w') /\
    o <> Exhausted /\
    forall rows, o = Done rows ->
      exists dates new,
        rows = data_rows ++ new /\
        Forall2 (row_of_day tokens scale) dates new /\
        StronglySorted Z.lt dates /\
        Forall (fun d => current_date <= d <= end_date) dates /\
        Z.of_nat (length new) <= Z.max 0 (end_date - current_date + 1).
Proof.
  induction fuel as [|fuel IH]; intros current_date data_rows w Hfuel.
  - exists (Done data_rows), w. cbn [date_loop].
    replace (current_date <=? end_date) with false by (symmetry; apply Z.leb_gt; lia).
    split; [reflexivity |]. split; [discriminate |].
    intros rows [= <-]. exists [], []. rewrite app_nil_r.
    repeat split; try constructor. cbn. lia.
  - rewrite date_loop_unfold. destruct (Z.leb_spec current_date end_date) as [Hle | Hgt].
    2:{ exists (Done data_rows), w. split; [reflexivity |]. split; [discriminate |].
        intros rows [= <-]. exists [], []. rewrite app_nil_r.
        repeat split; try constructor. cbn. lia. }
    cbv zeta.
    assert (Hskip : forall w1 : world Net,
      exists o w',
        match next_day current_date with
        | Some d => date_loop post tokens scale fuel d end_date data_rows w1
        | None => (ArithmeticError, w1)
        end = (o, w') /\
        o <> Exhausted /\
        forall rows, o = Done rows ->
          exists dates new,
            rows = data_rows ++ new /\ Forall2 (row_of_day tokens scale) dates new /\
            StronglySorted Z.lt dates /\
            Forall (fun d => current_date <= d <= end_date) dates /\
            Z.of_nat (length new) <= Z.max 0 (end_date - current_date + 1)).
    { intros w1. unfold next_day. destruct (current_date <? date_max).
      - destruct (IH (current_date + 1) data_rows w1 ltac:(lia))
          as (o & w' & Hrun & Ho & Hrows).
        exists o, w'. split; [exact Hrun |]. split; [exact Ho |].
        intros rows Hdone.
        destruct (Hrows rows Hdone) as (dates & new & Heq & Hall & Hsorted & Hrange & Hlen).
        exists dates, new. split; [exact Heq |]. split; [exact Hall |].
        split; [exact Hsorted |]. split; [| lia].
        eapply Forall_impl; [exact Hrange |]. cbn. intros d Hd. lia.
      - exists ArithmeticError, w1. split; [reflexivity |]. split; [discriminate |].
        intros rows Hdone. discriminate. }
    pose proof (resolve_returns current_date w) as Hresolve.
    destruct (get_closest_block_timestamp post current_date w) as [[[[bn t] |] | e |] w1];
      cbn [fst] in Hresolve.
    + pose proof (retrying_reader_returns bn w1) as Hread.
      destruct (get_token_total_supplies_with_retries post tokens bn 3 1 w1)
        as [[[m |] | e |] w2] eqn:Hsupplies; cbn [fst] in Hread.
      * destruct (make_row tokens scale current_date bn m) as [row |] eqn:Hrow.
        2:{ exists ArithmeticError, w2. split; [reflexivity |]. split; [discriminate |].
            intros rows Hdone. discriminate. }
        assert (Hc : complete m = true).
        { unfold get_token_total_supplies_with_retries in Hsupplies.
          exact (retry_loop_complete post tokens bn 1 _ w1 m w2 Hsupplies). }
        unfold next_day. destruct (current_date <? date_max).
        -- destruct (IH (current_date + 1) (data_rows ++ [row]) w2 ltac:(lia))
             as (o & w' & Hrun & Ho & Hrows).
           exists o, w'. split; [exact Hrun |]. split; [exact Ho |].
           intros rows Hdone.
           destruct (Hrows rows Hdone) as (dates & new & Heq & Hall & Hsorted & Hrange & Hlen).
           exists (current_date :: dates), (row :: new).
           split; [rewrite Heq, <- app_assoc; reflexivity |].
           split; [constructor; [exists bn, m; split; assumption | exact Hall] |].
           split.
           { constructor; [exact Hsorted |].
             eapply Forall_impl; [exact Hrange |]. cbn. intros d Hd. lia. }
           split.
           { constructor; [lia |].
             eapply Forall_impl; [exact Hrange |]. cbn. intros d Hd. lia. }
           cbn [length]. lia.
        -- exists ArithmeticError, w2. split; [reflexivity |]. split; [discriminate |].
           intros rows Hdone. discriminate.
      * apply Hskip.
      * exists (Uncaught e), w2. split; [reflexivity |]. split; [discriminate |].
        intros rows Hdone. discriminate.
      * contradiction.
    + apply Hskip.
    + exists (Uncaught e), w1. split; [reflexivity |]. split; [discriminate |].
      intros rows Hdone. discriminate.
    + contradiction.
Qed.

(** X9: [get_data_for_date_range] always ends, with its rows or with an
    exception, whatever the endpoint does.  The rows it returns belong to
    strictly increasing days of the range [start_date .. end_date], at most
    one row per day, each made from a block number and a mapping that
    passed the completeness test of the retrying reader. *)
Theorem date_range_rows start_date end_date (w : world Net) :
  exists o w',
    get_data_for_date_range post tokens scale start_date end_date w = (o, w') /\
    o <> Exhausted /\
    forall rows, o = Done rows ->
      exists dates,
        Forall2 (row_of_day tokens scale) dates rows /\
        StronglySorted Z.lt dates /\
        Forall (fun d => start_date <= d <= end_date) dates /\
        Z.of_nat (length rows) <= Z.max 0 (end_date - start_date + 1).
Proof.
  unfold get_data_for_date_range.
  destruct (date_loop_rows end_date (Z.to_nat (end_date - start_date + 1)) start_date [] w
              ltac:(lia)) as (o & w' & Hrun & Ho & Hrows).
  exists o, w'. split; [exact Hrun |]. split; [exact Ho |].
  intros rows Hdone.
  destruct (Hrows rows Hdone) as (dates & new & Heq & Hall & Hsorted & Hrange & Hlen).
  cbn [app] in Heq. subst new. exists dates. auto.
Qed.

End CallerFacts.

Section RowFacts.

Context {F : Type}.
Variable tokens : list token.
Variable scale : Z -> Z -> option F.
Variable token_supplies : gmap string (option Z).

Lemma fill_cells_failed (l : list token) :
  foldl (fill_cell scale token_supplies) None l = None.
Proof. induction l as [|t l IH]; [reflexivity | exact IH]. Qed.

Lemma fill_cells (l : list token) : forall row0 row,
  NoDup (name <$> l) ->
  foldl (fill_cell scale token_supplies) (Some row0) l = Some row ->
  (forall t, t ∈ l -> exists c, row !! name t = Some c /\ cell_of scale token_supplies t c) /\
  (forall k, k ∉ name <$> l -> row !! k = row0 !! k).
Proof.
  induction l as [|t l IH] using rev_ind; intros row0 row Hnd Hfold.
  - cbn [foldl] in Hfold. injection Hfold as <-.
    split; [intros t Ht; apply elem_of_nil in Ht; contradiction | reflexivity].
  - rewrite fmap_app in Hnd. apply NoDup_app in Hnd as (Hnd & Hfresh & _).
    rewrite foldl_snoc in Hfold.
    destruct (foldl (fill_cell scale token_supplies) (Some row0) l) as [row1 |] eqn:Hl;
      [| discriminate].
    destruct (IH row0 row1 Hnd Hl) as [Hcells Hrest].
    assert (Hnew : name t ∉ name <$> l).
    { intros Hin. apply (Hfresh _ Hin). cbn. left. }
    cbn [fill_cell] in Hfold.
    assert (Hlast : exists c, row = <[name t := c]> row1 /\ cell_of scale token_supplies t c).
    { destruct (supplies_get token_supplies (name t)) as [raw |] eqn:Hget.
      - destruct (scale raw (decimals t)) as [x |] eqn:Hx; [| discriminate].
        injection Hfold as <-. exists (CValue x). split; [reflexivity |].
        right. exists raw, x. auto.
      - injection Hfold as <-. exists CNone. split; [reflexivity |]. left. auto. }
    destruct Hlast as (c & -> & Hc). split.
    + intros t' Ht'. apply elem_of_app in Ht' as [Ht' | Ht'].
      * destruct (Hcells t' Ht') as (c' & Hk & Hc'). exists c'. split; [| exact Hc'].
        rewrite lookup_insert_ne; [exact Hk |].
        intros Heq. apply Hnew. rewrite Heq. apply list_elem_of_fmap. eauto.
      * apply list_elem_of_singleton in Ht'. subst t'. exists c.
        split; [apply lookup_insert_eq | exact Hc].
    + intros k Hk. rewrite fmap_app in Hk.
      rewrite lookup_insert_ne.
      * apply Hrest. intros Hin. apply Hk. apply elem_of_app. left. exact Hin.
      * intros Heq. apply Hk. apply elem_of_app. right. rewrite <- Heq. cbn. left.
Qed.

(** X10: a row that [get_data_for_date_range] makes, for a table with
    distinct names none of which is ["date"] or ["block"], holds the date,
    the block number and one cell per token and nothing else: the cell is
    [None] when the caller's [get] reads [None] for the name, and the
    scaled supply otherwise.  No row is made when the scaling of a supply
    raises. *)
Theorem row_has_a_cell_per_token current_date block_number row :
  NoDup (name <$> tokens) ->
  "date" ∉ name <$> tokens ->
  "block" ∉ name <$> tokens ->
  make_row tokens scale current_date block_number token_supplies = Some row ->
  row !! "date" = Some (CDate current_date) /\
  row !! "block" = Some (CBlock block_number) /\
  (forall t, t ∈ tokens -> exists c, row !! name t = Some c /\ cell_of scale token_supplies t c) /\
  (forall k, k ∉ name <$> tokens -> k <> "date" -> k <> "block" -> row !! k = None).
Proof.
  intros Hnd Hdate Hblock Hrow. unfold make_row in Hrow.
  destruct (fill_cells tokens _ row Hnd Hrow) as [Hcells Hrest].
  split; [rewrite (Hrest _ Hdate); reflexivity |].
  split; [rewrite (Hrest _ Hblock); reflexivity |].
  split; [exact Hcells |].
  intros k Hk Hkd Hkb. rewrite (Hrest k Hk).
  rewrite lookup_insert_ne by congruence. rewrite lookup_insert_ne by congruence.
  apply lookup_empty.
Qed.

(** X11: when the scaling of the supply of one token raises, no row is
    made, whatever the other tokens are. *)
Theorem scaling_error_leaves_no_row current_date block_number t raw_supply :
  t ∈ tokens ->
  supplies_get token_supplies (name t) = Some raw_supply ->
  scale raw_supply (decimals t) = None ->
  make_row tokens scale current_date block_number token_supplies = None.
Proof.
  intros Hin Hget Hscale.
  apply list_elem_of_split in Hin as (before & after & ->).
  unfold make_row. rewrite foldl_app. cbn [foldl].
  destruct (foldl (fill_cell scale token_supplies) _ before) as [row1 |].
  - cbn [fill_cell]. rewrite Hget, Hscale. apply fill_cells_failed.
  - apply fill_cells_failed.
Qed.

End RowFacts.

Lemma row_has_a_cell_per_token_witness :
  let supplies : gmap string (option Z) := {[ "USDC" := Some 2500000; "USDT" := Some 7 ]} in
  exists row,
    make_row TOKENS capped_scale 19727 4 supplies = Some row /\
    row !! "date" = Some (CDate 19727) /\
    row !! "block" = Some (CBlock 4) /\
    row !! "DAI" = None /\
    exists c, row !! "SFASTUSD" = Some c /\ cell_of capped_scale supplies
                {| name := "SFASTUSD";
                   contract := "0x37a4dd9ced2b19cfe8fac251cd727b5787e45269";
                   decimals := 18 |} c.
Proof.
  intros supplies.
  assert (Hnames : forall k, k <> "USDC" -> k <> "USDT" -> k <> "SFASTUSD" ->
                             k ∉ name <$> TOKENS).
  { intros k H1 H2 H3 Hin. vm_compute in Hin.
    repeat (apply elem_of_cons in Hin as [Heq | Hin]; [congruence |]).
    apply elem_of_nil in Hin. exact Hin. }
  destruct (make_row TOKENS capped_scale 19727 4 supplies) as [row |] eqn:Hrow;
    [| vm_compute in Hrow; discriminate].
  exists row. split; [reflexivity |].
  destruct (row_has_a_cell_per_token TOKENS capped_scale supplies 19727 4 row
              TOKENS_names_distinct
              ltac:(apply Hnames; discriminate) ltac:(apply Hnames; discriminate) Hrow)
    as (Hdate & Hblock & Hcells & Hrest).
  split; [exact Hdate |]. split; [exact Hblock |].
  split; [apply Hrest; [apply Hnames |..]; discriminate |].
  apply (Hcells {| name := "SFASTUSD";
                   contract := "0x37a4dd9ced2b19cfe8fac251cd727b5787e45269";
                   decimals := 18 |}).
  right. right. left.
Defined.

Lemma scaling_error_leaves_no_row_witness :
  make_row TOKENS capped_scale 19727 4 {[ "USDC" := Some 1; "USDT" := Some (2 ^ 1100) ]}
  = None.
Proof.
  refine (scaling_error_leaves_no_row TOKENS capped_scale _ 19727 4
            {| name := "USDT"; contract := "0xB75D0B03c06A926e488e2659DF1A861F860bD3d1";
               decimals := 6 |} (2 ^ 1100) _ _ _).
  - right. left.
  - reflexivity.
  - vm_compute. reflexivity.
Defined.

(** *** The date range at its edges *)

Section CallerEdges.

Context {Net F : Type}.
Variable post : Net -> payload -> http * Net.
Variable tokens : list token.
Variable scale : Z -> Z -> option F.

Lemma dead_endpoint_fails p k :
  (forall n q, fst (post n q) = HttpError) ->
  forall n, all_fail post p k n = true.
Proof.
  intros Hdead. induction k as [|k IH]; intros n; [reflexivity |].
  cbn [all_fail]. pose proof (Hdead n p) as Hp.
  destruct (post n p) as [o n']. cbn [fst] in Hp. subst o. apply IH.
Qed.

Lemma dead_endpoint_resolve target_date (w : world Net) :
  (forall n q, fst (post n q) = HttpError) ->
  exists w',
    get_closest_block_timestamp post target_date w = (Ret None, w') /\
    trace w' = trace w ++ attempt_trace (Single latest_request) 1 0 3.
Proof.
  intros Hdead.
  destruct (post_loop_spec post (Single latest_request) 3 1 3%nat ltac:(lia) 0 w eq_refl)
    as (b & w' & k & Hrun & _ & _ & Htr & Hnone & Hall).
  assert (Hb : b = None) by (apply Hnone; apply dead_endpoint_fails; exact Hdead).
  subst b. rewrite (Hall eq_refl) in Htr.
  exists w'. split; [| exact Htr].
  unfold get_closest_block_timestamp, bind, call_rpc.
  change (Z.to_nat 3) with 3%nat. fold latest. fold latest_request.
  rewrite Hrun. reflexivity.
Qed.

Lemma dead_endpoint_loop end_date fuel : forall current_date data_rows (w : world Net),
  (forall n q, fst (post n q) = HttpError) ->
  end_date < date_max ->
  end_date - current_date + 1 <= Z.of_nat fuel ->
  exists w' d,
    date_loop post tokens scale fuel current_date end_date data_rows w
      = (Done data_rows, w') /\
    trace w' = trace w ++ d /\
    posts d = 3 * Z.max 0 (end_date - current_date + 1) /\
    batch_calls d = 0.
Proof.
  intros current_date data_rows w Hdead Hend. revert current_date data_rows w.
  induction fuel as [|fuel IH]; intros current_date data_rows w Hfuel.
  - exists w, []. cbn [date_loop].
    replace (current_date <=? end_date) with false by (symmetry; apply Z.leb_gt; lia).
    rewrite app_nil_r. repeat split; try reflexivity. change (posts []) with 0. lia.
  - rewrite date_loop_unfold. destruct (Z.leb_spec current_date end_date) as [Hle | Hgt].
    2:{ exists w, []. rewrite app_nil_r. repeat split; try reflexivity.
        change (posts []) with 0. lia. }
    cbv zeta.
    destruct (dead_endpoint_resolve current_date w Hdead) as (w1 & Hrun & Htr1).
    rewrite Hrun. unfold next_day.
    replace (current_date <? date_max) with true by (symmetry; apply Z.ltb_lt; lia).
    destruct (IH (current_date + 1) data_rows w1 ltac:(lia)) as (w' & d & Hloop & Htr & Hp & Hb).
    exists w', (attempt_trace (Single latest_request) 1 0 3 ++ d).
    split; [exact Hloop |].
    split; [rewrite Htr, Htr1, app_assoc; reflexivity |].
    rewrite posts_app, posts_attempt_trace, Hp, batch_calls_app, Hb.
    split; [lia | reflexivity].
Qed.

(** X12: when every post fails, [get_data_for_date_range], for a range
    that ends before [date.max], returns no row: each day of the range
    costs the three posts of the latest-block call, and no batch is ever
    submitted. *)
Theorem dead_endpoint_gives_no_rows start_date end_date (w : world Net) :
  (forall n q, fst (post n q) = HttpError) ->
  end_date < date_max ->
  exists w' d,
    get_data_for_date_range post tokens scale start_date end_date w = (Done [], w') /\
    trace w' = trace w ++ d /\
    posts d = 3 * Z.max 0 (end_date - start_date + 1) /\
    batch_calls d = 0.
Proof.
  intros Hdead Hend. unfold get_data_for_date_range.
  apply dead_endpoint_loop; [exact Hdead | exact Hend | lia].
Qed.

Lemma date_max_loop fuel : forall current_date data_rows (w : world Net) rows,
  current_date <= date_max ->
  fst (date_loop post tokens scale fuel current_date date_max data_rows w) <> Done rows.
Proof.
  induction fuel as [|fuel IH]; intros current_date data_rows w rows Hle.
  - cbn [date_loop].
    replace (current_date <=? date_max) with true by (symmetry; apply Z.leb_le; lia).
    discriminate.
  - rewrite date_loop_unfold.
    replace (current_date <=? date_max) with true by (symmetry; apply Z.leb_le; lia).
    cbv zeta.
    assert (Hnext : forall data_rows' (w1 : world Net),
      fst match next_day current_date with
          | Some d => date_loop post tokens scale fuel d date_max data_rows' w1
          | None => (ArithmeticError, w1)
          end <> Done rows).
    { intros data_rows' w1. unfold next_day.
      destruct (Z.ltb_spec current_date date_max) as [Hlt | Hge]; [| discriminate].
      apply IH. lia. }
    destruct (get_closest_block_timestamp post current_date w) as [[[[bn t] |] | e |] w1];
      try discriminate; [| apply Hnext].
    destruct (get_token_total_supplies_with_retries post tokens bn 3 1 w1)
      as [[[m |] | e |] w2]; try discriminate; [| apply Hnext].
    destruct (make_row tokens scale current_date bn m) as [row |]; [apply Hnext | discriminate].
Qed.

(** X13: for a non-empty range that ends at [date.max],
    [get_data_for_date_range] never returns its rows: the step to the next
    day that follows the last day raises, whatever the endpoint answered
    before. *)
Theorem range_to_date_max_raises start_date (w : world Net) rows :
  start_date <= date_max ->
  fst (get_data_for_date_range post tokens scale start_date date_max w) <> Done rows.
Proof.
  intros Hle. unfold get_data_for_date_range. apply date_max_loop. exact Hle.
Qed.

End CallerEdges.

Lemma dead_endpoint_gives_no_rows_witness :
  exists w' d,
    get_data_for_date_range (const_post HttpError) TOKENS capped_scale 19723 19727 w0
      = (Done [], w') /\
    trace w' = trace w0 ++ d /\
    posts d = 15 /\
    batch_calls d = 0.
Proof.
  exact (dead_endpoint_gives_no_rows (const_post HttpError) TOKENS capped_scale 19723 19727 w0
           (fun n q => eq_refl) ltac:(reflexivity)).
Defined.

Lemma range_to_date_max_raises_witness :
  fst (get_data_for_date_range (const_post HttpError) TOKENS capped_scale
         date_max date_max w0) <> Done [] /\
  fst (get_data_for_date_range (const_post HttpError) TOKENS capped_scale
         date_max date_max w0) = ArithmeticError.
Proof.
  split; [| reflexivity].
  exact (range_to_date_max_raises (const_post HttpError) TOKENS capped_scale date_max w0 []
           ltac:(reflexivity)).
Defined.

(** *** A whole run on a synthetic ledger *)

Section Ledger.

Context {F : Type}.
Variable head : Z.
Variable timestamp : Z -> Z.
Variable supply : Z -> string -> Z.
Variable tokens : list token.
Variable scale : Z -> Z -> option F.

Hypothesis head_nonneg : 0 <= head.
Hypothesis monotone :
  forall a b, 0 <= a -> a <= b -> b <= head -> timestamp a <= timestamp b.
Hypothesis representable :
  forall b, 0 <= b <= head -> -62135596800 <= timestamp b <= 253402300799.
Hypothesis names_distinct : NoDup (name <$> tokens).
Hypothesis some_token : tokens <> [].
Hypothesis scalable :
  forall b t, t ∈ tokens -> is_Some (scale (supply b (contract t)) (decimals t)).

(** The ledger answers a single request as the chain does, so that the
    search runs on it as on the chain. *)
Lemma ledger_resolved target_date (w : world unit) :
  exists r w',
    get_closest_block_timestamp (ledger_post head timestamp supply) target_date w
      = (Ret r, w') /\
    resolved head timestamp target_date r.
Proof.
  exact (chain_resolved head timestamp head_nonneg monotone representable target_date w).
Qed.

Lemma supply_of_hex n : supply_of (Some (Py.hex n)) = Some n.
Proof.
  unfold supply_of.
  destruct (String.eqb (Py.hex n) "0x" || String.eqb (Py.hex n) "0x0") eqn:E;
    [| apply int16_hex].
  pose proof (int16_hex n) as Hn.
  apply orb_true_iff in E as [E | E]; apply String.eqb_eq in E; rewrite E in Hn;
    vm_compute in Hn; congruence.
Qed.

Lemma single_response_for (rs : list rpc_response) : forall (i : nat) r,
  NoDup (resp_id <$> rs) ->
  rs !! i = Some r ->
  filter (fun x => resp_id x = resp_id r) rs = [r].
Proof.
  induction rs as [|x rs IH]; intros i r Hnd Hi; [discriminate |].
  rewrite fmap_cons in Hnd. apply NoDup_cons in Hnd as [Hfresh Hnd].
  destruct i as [|i].
  - injection Hi as ->. rewrite filter_cons_True by reflexivity. f_equal.
    clear IH. induction rs as [|y rs IHrs]; [reflexivity |].
    rewrite fmap_cons in Hfresh, Hnd. apply NoDup_cons in Hnd as [_ Hnd].
    rewrite filter_cons_False.
    + apply IHrs; [| exact Hnd]. intros Hin. apply Hfresh. right. exact Hin.
    + intros Heq. apply Hfresh. rewrite <- Heq. left.
  - change ((x :: rs) !! S i) with (rs !! i) in Hi.
    rewrite filter_cons_False; [exact (IH i r Hnd Hi) |].
    intros Heq. apply Hfresh. rewrite Heq. apply list_elem_of_fmap.
    exists r. split; [reflexivity | eapply list_elem_of_lookup_2; exact Hi].
Qed.

Lemma ledger_batch block_number (w : world unit) :
  call_rpc_batch (ledger_post head timestamp supply) (batch_payload tokens block_number) 3 1 w
  = (Ret (Some (BodyArray (ledger_answer supply <$> batch_payload tokens block_number))),
     World (net w) (trace w ++ [EvPost 0 (Batch (batch_payload tokens block_number))])).
Proof. reflexivity. Qed.

Lemma ledger_answers block_number (i : nat) t :
  tokens !! i = Some t ->
  exists resp,
    last (responses_for (Z.of_nat i)
            (ledger_answer supply <$> batch_payload tokens block_number)) = Some resp /\
    supply_of (resp_result resp) = Some (supply block_number (contract t)).
Proof.
  intros Ht.
  set (rs := ledger_answer supply <$> batch_payload tokens block_number).
  set (resp := ledger_answer supply (supply_request block_number (Z.of_nat i, t))).
  assert (Hi : rs !! i = Some resp).
  { unfold rs, batch_payload, enumerate.
    rewrite !list_lookup_fmap, enumerate_from_lookup, Ht. reflexivity. }
  assert (Hnd : NoDup (resp_id <$> rs)).
  { unfold rs, batch_payload, enumerate. rewrite <- !list_fmap_compose.
    replace (resp_id ∘ ledger_answer supply ∘ supply_request block_number)
      with (Some ∘ @fst Z token) by reflexivity.
    rewrite list_fmap_compose, enumerate_from_ids.
    apply NoDup_fmap_2; [intros a b; congruence |].
    apply NoDup_fmap_2; [intros a b Hab; lia | apply NoDup_seq]. }
  exists resp. split.
  - unfold responses_for.
    change (Some (Z.of_nat i)) with (resp_id resp).
    rewrite (single_response_for rs i resp Hnd Hi). reflexivity.
  - unfold resp, ledger_answer, supply_request. cbn [resp_result req_params fst snd].
    rewrite int16_hex. cbn [fmap option_fmap option_map]. apply supply_of_hex.
Qed.

(** On the ledger the retrying reader gets every supply at its first
    attempt. *)
Lemma ledger_read block_number (w : world unit) :
  exists m w',
    get_token_total_supplies_with_retries (ledger_post head timestamp supply) tokens
      block_number 3 1 w = (Ret (Some m), w') /\
    (forall t, t ∈ tokens -> m !! name t = Some (Some (supply block_number (contract t)))).
Proof.
  set (rs := ledger_answer supply <$> batch_payload tokens block_number).
  assert (Hbound : forall t, t ∈ tokens ->
    decode_responses tokens rs !! name t = Some (Some (supply block_number (contract t)))).
  { intros t Hin. apply list_elem_of_lookup in Hin as (i & Ht).
    destruct (ledger_answers block_number i t Ht) as (resp & Hlast & Hv).
    rewrite (decode_responses_lookup tokens i t rs names_distinct Ht).
    fold rs in Hlast. rewrite Hlast. cbn. rewrite Hv. reflexivity. }
  assert (Hc : complete (decode_responses tokens rs) = true).
  { unfold complete. apply andb_true_iff. split; apply bool_decide_eq_true.
    - destruct tokens as [|t l] eqn:Htokens; [contradiction |].
      intros Hempty. pose proof (Hbound t ltac:(left)) as Hk.
      rewrite Hempty, lookup_empty in Hk. discriminate.
    - intros k x Hk.
      destruct (decide (k ∈ name <$> tokens)) as [Hin | Hnotin].
      + apply list_elem_of_fmap in Hin as (t & -> & Hin).
        rewrite (Hbound t Hin) in Hk. injection Hk as <-. eauto.
      + rewrite (decode_responses_foreign tokens rs k Hnotin) in Hk. discriminate. }
  exists (decode_responses tokens rs). eexists. split; [| exact Hbound].
  unfold get_token_total_supplies_with_retries. change (Z.to_nat 3) with 3%nat.
  cbn [retry_loop]. unfold bind at 1.
  rewrite (get_token_total_supplies_run tokens (ledger_post head timestamp supply)
             block_number w _ _ (ledger_batch block_number w)).
  fold rs. rewrite Hc. reflexivity.
Qed.

Lemma ledger_fill_cells block_number (m : gmap string (option Z)) (l : list token) :
  (forall t, t ∈ l -> t ∈ tokens) ->
  (forall t, t ∈ tokens -> m !! name t = Some (Some (supply block_number (contract t)))) ->
  forall row0 : gmap string (cell F), is_Some (foldl (fill_cell scale m) (Some row0) l).
Proof.
  intros Hall Hm. induction l as [|t l IH]; intros row0; cbn [foldl]; [eauto |].
  cbn [fill_cell]. unfold supplies_get.
  rewrite (Hm t (Hall t ltac:(left))). cbn [from_option id].
  destruct (scalable block_number t (Hall t ltac:(left))) as [x ->].
  apply IH. intros t' Hin. apply Hall. right. exact Hin.
Qed.

Lemma ledger_make_row current_date block_number (m : gmap string (option Z)) :
  (forall t, t ∈ tokens -> m !! name t = Some (Some (supply block_number (contract t)))) ->
  is_Some (make_row tokens scale current_date block_number m).
Proof.
  intros Hm. unfold make_row.
  apply (ledger_fill_cells block_number m tokens); [auto | exact Hm].
Qed.

Lemma ledger_loop end_date fuel : forall current_date data_rows (w : world unit),
  end_date < date_max ->
  end_date - current_date + 1 <= Z.of_nat fuel ->
  let first := Z.max current_date (chain_date timestamp 0) in
  exists new w',
    date_loop (ledger_post head timestamp supply) tokens scale fuel current_date end_date
      data_rows w = (Done (data_rows ++ new), w') /\
    Forall2 (ledger_row head timestamp supply tokens scale)
      (seqZ first (end_date - first + 1)) new.
Proof.
  induction fuel as [|fuel IH]; intros current_date data_rows w Hend Hfuel first.
  - exists [], w. cbn [date_loop].
    replace (current_date <=? end_date) with false by (symmetry; apply Z.leb_gt; lia).
    rewrite app_nil_r. split; [reflexivity |].
    rewrite seqZ_nil by lia. constructor.
  - rewrite date_loop_unfold. destruct (Z.leb_spec current_date end_date) as [Hle | Hgt].
    2:{ exists [], w. rewrite app_nil_r. split; [reflexivity |].
        rewrite seqZ_nil by lia. constructor. }
    cbv zeta. unfold next_day.
    replace (current_date <? date_max) with true by (symmetry; apply Z.ltb_lt; lia).
    destruct (ledger_resolved current_date w) as (r & w1 & Hrun & Hres). rewrite Hrun.
    destruct r as [[n t] |]; cbn [resolved] in Hres.
    + destruct Hres as (Hn & -> & Hcase).
      destruct (ledger_read n w1) as (m & w2 & Hread & Hm). rewrite Hread.
      destruct (ledger_make_row current_date n m Hm) as [row Hrow]. rewrite Hrow.
      pose proof (chain_date_monotone head timestamp monotone 0 n ltac:(lia) ltac:(lia)
                    ltac:(lia)) as Hgenesis.
      assert (Hfirst : first = current_date)
        by (subst first; destruct Hcase as [Heq | [Hlt _]]; lia).
      destruct (IH (current_date + 1) (data_rows ++ [row]) w2 Hend ltac:(lia))
        as (new & w' & Hloop & Hrows).
      exists (row :: new), w'.
      split; [rewrite Hloop, <- app_assoc; reflexivity |].
      rewrite Hfirst, seqZ_cons by lia. constructor.
      * exists n, m. split; [| split; [exact Hm | exact Hrow]].
        cbn [resolved]. split; [exact Hn |]. split; [reflexivity | exact Hcase].
      * cbv zeta in Hrows.
        replace (Z.max (current_date + 1) (chain_date timestamp 0))
          with (Z.succ current_date) in Hrows by lia.
        replace (Z.pred (end_date - current_date + 1))
          with (end_date - Z.succ current_date + 1) by lia.
        exact Hrows.
    + pose proof (Hres 0 ltac:(lia)) as Hgenesis.
      destruct (IH (current_date + 1) data_rows w1 Hend ltac:(lia))
        as (new & w' & Hloop & Hrows).
      exists new, w'. split; [exact Hloop |].
      cbv zeta in Hrows.
      replace (Z.max (current_date + 1) (chain_date timestamp 0)) with first in Hrows
        by (subst first; lia).
      exact Hrows.
Qed.

(** X14: on a ledger with monotone timestamps whose endpoint answers every
    call, [get_data_for_date_range] returns exactly one row for every day
    of the range from the date of block 0 on, in the order of the days, and
    no row for the days before it; the row of a day holds a block that the
    search may return for that day and the supplies of that block. *)
Theorem ledger_gives_a_row_per_day start_date end_date (w : world unit) :
  end_date < date_max ->
  let first := Z.max start_date (chain_date timestamp 0) in
  exists rows w',
    get_data_for_date_range (ledger_post head timestamp supply) tokens scale
      start_date end_date w = (Done rows, w') /\
    Forall2 (ledger_row head timestamp supply tokens scale)
      (seqZ first (end_date - first + 1)) rows.
Proof.
  intros Hend first. unfold get_data_for_date_range.
  destruct (ledger_loop end_date (Z.to_nat (end_date - start_date + 1)) start_date [] w
              Hend ltac:(lia)) as (new & w' & Hloop & Hrows).
  exists new, w'. split; [exact Hloop | exact Hrows].
Qed.

End Ledger.

(** Head 100, block [n] stamped with the midnight of 2024-01-01 plus [n]
    days: of the five days from 2023-12-30 to 2024-01-03 the last three
    have a row. *)
Lemma ledger_gives_a_row_per_day_witness :
  let timestamp := fun n => (19723 + n) * 86400 in
  let supply := fun (b : Z) (c : string) => 1000 * b + Z.of_nat (String.length c) in
  let scale := fun raw decimals : Z => Some (raw, 10 ^ decimals) in
  exists rows w',
    get_data_for_date_range (ledger_post 100 timestamp supply) TOKENS scale 19721 19725 w0
      = (Done rows, w') /\
    length rows = 3%nat.
Proof.
  intros timestamp supply scale.
  destruct (ledger_gives_a_row_per_day 100 timestamp supply TOKENS scale ltac:(lia)
              ltac:(intros a b; unfold timestamp; lia)
              ltac:(intros b; unfold timestamp; lia)
              TOKENS_names_distinct ltac:(discriminate)
              ltac:(intros b t _; unfold scale; eauto)
              19721 19725 w0 ltac:(reflexivity)) as (rows & w' & Hrun & Hrows).
  exists rows, w'. split; [exact Hrun |].
  apply Forall2_length in Hrows. rewrite <- Hrows. reflexivity.
Defined.

(** *** The posts of one resolution *)

Section ResolvePosts.

Context {Net : Type}.
Variable post : Net -> payload -> http * Net.

Lemma search_posts target_date fuel : forall low high chosen (w : world Net),
  high - low + 1 <= Z.of_nat fuel ->
  exists r w' d,
    search post fuel target_date low high chosen w = (r, w') /\
    trace w' = trace w ++ d /\
    posts d <= 3 * search_bound (high - low + 1).
Proof.
  induction fuel as [|fuel IH]; intros low high chosen w Hfuel.
  - exists (Ret chosen), w, []. cbn [search].
    replace (low <=? high) with false by (symmetry; apply Z.leb_gt; lia).
    rewrite app_nil_r. split; [reflexivity |]. split; [reflexivity |].
    pose proof (search_bound_nonneg (high - low + 1)). change (posts []) with 0. lia.
  - rewrite search_unfold. destruct (Z.leb_spec low high) as [Hle | Hgt].
    2:{ exists (Ret chosen), w, []. rewrite app_nil_r.
        split; [reflexivity |]. split; [reflexivity |].
        pose proof (search_bound_nonneg (high - low + 1)). change (posts []) with 0. lia. }
    destruct (midpoint_bounds low high Hle) as (Hmid & Hright & Hleft).
    set (mid := (low + high) / 2) in *. cbv zeta.
    destruct (call_rpc_spec post "eth_getBlockByNumber" [PStr (Py.hex mid); PBool false] w)
      as (b & w1 & k & Hcall & Hk & Htr).
    cbv zeta in Htr.
    set (attempts := attempt_trace
           (Single {| req_id := 1; req_method := "eth_getBlockByNumber";
                      req_params := [PStr (Py.hex mid); PBool false] |}) 1 0 k) in *.
    assert (Hposts : posts attempts <= 3)
      by (unfold attempts; rewrite posts_attempt_trace; lia).
    assert (Hbound : 1 <= search_bound (high - low + 1)).
    { pose proof (search_bound_step (high - low + 1) 0 ltac:(lia)
                    ltac:(Z.to_euclidean_division_equations; lia)) as H.
      pose proof (search_bound_nonneg 0). lia. }
    assert (Hstop : forall r : result (option (Z * Z)),
      exists r' w' d, (r, w1) = (r', w') /\ trace w' = trace w ++ d /\
        posts d <= 3 * search_bound (high - low + 1)).
    { intros r. exists r, w1, attempts. split; [reflexivity |]. split; [exact Htr | lia]. }
    assert (Hrec : forall low' high' chosen',
      high' - low' + 1 <= (high - low + 1) / 2 ->
      high' - low' + 1 <= Z.of_nat fuel ->
      exists r' w' d, search post fuel target_date low' high' chosen' w1 = (r', w') /\
        trace w' = trace w ++ d /\ posts d <= 3 * search_bound (high - low + 1)).
    { intros low' high' chosen' Hhalf Hfuel'.
      destruct (IH low' high' chosen' w1 Hfuel') as (r' & w' & d & Hrun & Htr' & Hp).
      exists r', w', (attempts ++ d). split; [exact Hrun |].
      split; [rewrite Htr', Htr, app_assoc; reflexivity |].
      rewrite posts_app.
      pose proof (search_bound_step (high - low + 1) (high' - low' + 1) ltac:(lia) Hhalf).
      lia. }
    unfold bind at 1. rewrite Hcall.
    destruct (result_member b) as [v |]; [| apply Hstop].
    unfold bind at 1, timestamp_of.
    destruct v as [| s | timestamp]; try apply Hstop.
    unfold ret at 1, bind at 1, int_str.
    destruct (Py.int16 timestamp) as [block_timestamp |]; [| apply Hstop].
    unfold ret at 1, bind at 1, date_of.
    destruct (Py.utc_date block_timestamp) as [block_date |]; [| apply Hstop].
    unfold ret at 1.
    destruct (block_date =? target_date); [apply Hstop |].
    destruct (block_date <? target_date); apply Hrec; lia.
Qed.

(** X15: with the retries of the transport counted in, one call of
    [get_closest_block_timestamp] makes at most
    [3 * (log2_up (head + 1) + 2)] posts, where [head] is the head number
    that the latest-block call reported, and at most 3 posts when that call
    reported none. *)
Theorem resolve_posts_bounded target_date (w : world Net) :
  exists r w' d,
    get_closest_block_timestamp post target_date w = (r, w') /\
    trace w' = trace w ++ d /\
    posts d <=
      match reported_head (fst (call_rpc post latest [] 3 1 w)) with
      | Some head => 3 * (Z.log2_up (head + 1) + 2)
      | None => 3
      end.
Proof.
  unfold get_closest_block_timestamp, latest.
  destruct (call_rpc_spec post "eth_blockNumber" [] w) as (b & w1 & k & Hcall & Hk & Htr).
  cbv zeta in Htr.
  set (attempts := attempt_trace
         (Single {| req_id := 1; req_method := "eth_blockNumber"; req_params := [] |})
         1 0 k) in *.
  assert (Hposts : posts attempts <= 3)
    by (unfold attempts; rewrite posts_attempt_trace; lia).
  assert (Hstop : forall (r : result (option (Z * Z))) bound, 3 <= bound ->
    exists r' w' d, (r, w1) = (r', w') /\ trace w' = trace w ++ d /\ posts d <= bound).
  { intros r bound Hb. exists r, w1, attempts.
    split; [reflexivity |]. split; [exact Htr | lia]. }
  unfold bind at 1. rewrite Hcall. cbn [fst reported_head].
  destruct (result_member b) as [v |]; [| apply Hstop; lia].
  unfold bind at 1, int_value.
  destruct v as [| s | timestamp]; try (apply Hstop; lia).
  unfold int_str.
  destruct (Py.int16 s) as [head |]; [| apply Hstop; lia].
  unfold ret at 1.
  destruct (search_posts target_date (Z.to_nat (head + 1)) 0 head None w1 ltac:(lia))
    as (r & w' & d & Hrun & Htr' & Hp).
  exists r, w', (attempts ++ d). split; [exact Hrun |].
  split; [rewrite Htr', Htr, app_assoc; reflexivity |].
  rewrite posts_app. replace (head - 0 + 1) with (head + 1) in Hp by lia.
  pose proof (search_bound_log2_up (head + 1)). lia.
Qed.

End ResolvePosts.
